(** * exchange-json-rpc: the peer-selecting request dispatcher and the BIP38 wallet lookup

    A shallow embedding of [packages/rpc/src/services/network.ts] (class
    [Network]) and of the wallet helpers [getBIP38Wallet] / [decryptWIF].

    The asynchronous methods of the source are sequential: every [await]
    is a suspension point, but nothing of one call runs in parallel with
    itself.  They are embedded as computations in a state-and-exception
    monad over a [World] that records, in order, every interaction with
    a collaborator outside the repository (discovery, reachability
    probe, HTTP client, logger, configuration manager, timers).  The
    answers of those collaborators come from an [Env] of oracles indexed
    by a clock that advances at every consultation, so one [Env] stands
    for one possible behaviour of the outside world.

    [getPeer] recurses without bound in the source; it and its callers
    are embedded with fuel, and running out of fuel is a third outcome
    next to returning and throwing.  The outcome keeps the world in all
    three cases, so that what a run did can be read off even when it
    threw or was still running. *)

From stdpp Require Import gmap strings list pretty.

Open Scope string_scope.
Open Scope list_scope.
Open Scope nat_scope.

Set Warnings "-register-all".

(** ** JavaScript values *)

(** The values that travel through the dispatcher: what [JSON.parse]
    produces, plus [undefined]. *)
Inductive JsValue : Type :=
| undefined
| JNull
| JBool (b : bool)
| JNum (n : Z)
| JStr (s : string)
| JArr (items : list JsValue)
| JObj (fields : list (string * JsValue)).

(** An [Error] object; the source reads nothing but [error.message]. *)
Record Error : Type := mkError { message : string }.

(** What a call into a collaborator ends with: a value, or an error
    (a rejected promise, a thrown exception). *)
Inductive Answer (A : Type) : Type :=
| Resolved (a : A)
| Rejected (e : Error).
Arguments Resolved {A} a.
Arguments Rejected {A} e.

Global Instance Answer_ret : MRet Answer := fun A a => Resolved a.

Global Instance Answer_bind : MBind Answer := fun A B f r =>
  match r with
  | Resolved a => f a
  | Rejected e => Rejected e
  end.

Definition dquote : string := String (Ascii.ascii_of_nat 34) EmptyString.

(** Truthiness of a string: only the empty string is falsy. *)
Definition truthy (s : string) : bool :=
  match s with
  | EmptyString => false
  | String _ _ => true
  end.

(** Truthiness of a value: [undefined], [null], [false], [0] and the
    empty string are falsy, everything else (every object and array
    included) is truthy.  Numbers are integers here, so there is no NaN. *)
Definition truthy_value (v : JsValue) : bool :=
  match v with
  | undefined | JNull | JBool false | JNum Z0 | JStr EmptyString => false
  | _ => true
  end.

(** [typeof v === "string"]. *)
Definition is_string (v : JsValue) : bool :=
  match v with
  | JStr _ => true
  | _ => false
  end.

(** The TypeError of reading property [key] of [undefined] or [null].
    The wording is the engine's (here V8's, as Node 10 to 14 print it);
    the source only logs it. *)
Definition cannotRead (key what : string) : Error :=
  mkError ("Cannot read property '" +:+ key +:+ "' of " +:+ what).

Fixpoint assoc (key : string) (fields : list (string * JsValue)) : JsValue :=
  match fields with
  | [] => undefined
  | (k, v) :: rest => if String.eqb k key then v else assoc key rest
  end.

(** [v.key] for the keys the source reads ([data], [block], [height]);
    none of them is an inherited member of a primitive or of an array.
    Reading a property of [undefined] or [null] throws a TypeError. *)
Definition getProp (v : JsValue) (key : string) : Answer JsValue :=
  match v with
  | undefined =>
      Rejected (cannotRead key "undefined")
  | JNull =>
      Rejected (cannotRead key "null")
  | JObj fields => Resolved (assoc key fields)
  | _ => Resolved undefined
  end.

(** ** Data model *)

(** [IPeer] of [../interfaces]. *)
Record IPeer : Type := mkPeer { ip : string; port : N }.

(** The [options] field of [Network]. *)
Record NetworkOptions : Type := {
  network : string;
  peer : string;
  maxLatency : Z;
  peerPort : N
}.

Inductive HttpMethod : Type := GET | POST.

(** [options.body]: [BodyObject v] is the value [v] the caller put there
    (an object when it comes through the typed [sendPOST], but any value
    as far as [sendRequest] checks); [BodyString s] is the JSON text that
    [sendRequest] has assigned in its place. *)
Inductive RequestBody : Type :=
| BodyString (s : string)
| BodyObject (o : JsValue).

(** The [options] argument of [sendRequest]: [{ query }] or [{ body }]. *)
Record RequestOptions : Type := {
  query : option JsValue;
  body : option RequestBody
}.

(** The second argument of [got[method]]:
    [{ ...options, headers: {...}, timeout: 3000 }]. *)
Record GotOptions : Type := {
  got_query : option JsValue;
  got_body : option RequestBody;
  headers : list (string * string);
  timeout : Z
}.

(** What [configManager.getMilestone] returns, as far as the source reads it. *)
Record Milestone : Type := { aip11 : bool; blocktime : Z }.

Inductive LogLevel : Type := Info | Warn | Err.

(** The one closure the source hands to [setTimeout]. *)
Inductive Callback : Type := RunCheckForAip11Enabled.

(** ** The outside world *)

Inductive Event : Type :=
| EvFindPeers (plugin : string) (answer : Answer (list IPeer))
| EvIsReachable (target : string) (answer : bool)
| EvGot (method : HttpMethod) (uri : string) (opts : GotOptions)
        (answer : Answer string)
| EvLog (level : LogLevel) (line : string)
| EvSetHeight (height : JsValue)
| EvSetTimeout (callback : Callback) (ms : Z).

(** [history] is newest first; [clock] counts the oracle consultations. *)
Record World : Type := mkWorld { clock : nat; history : list Event }.

(** The collaborators.  [random] is the draw inside [lodash.sample]. *)
Record Env : Type := {
  findPeersWithPlugin : nat -> string -> Answer (list IPeer);
  random : nat -> nat;
  isReachable : nat -> string -> bool;
  got : nat -> HttpMethod -> string -> GotOptions -> Answer string;
  JSON_parse : string -> Answer JsValue;
  JSON_stringify : JsValue -> string;
  getMilestone : JsValue -> Milestone
}.

(** ** The monad *)

Inductive Outcome (A : Type) : Type :=
| Returned (a : A) (w : World)
| Thrown (e : Error) (w : World)
| OutOfFuel (w : World).
Arguments Returned {A} a w.
Arguments Thrown {A} e w.
Arguments OutOfFuel {A} w.

Definition M (A : Type) : Type := World -> Outcome A.

Global Instance M_ret : MRet M := fun A a w => Returned a w.

Global Instance M_bind : MBind M := fun A B f m w =>
  match m w with
  | Returned a w' => f a w'
  | Thrown e w' => Thrown e w'
  | OutOfFuel w' => OutOfFuel w'
  end.

Definition throw {A : Type} (e : Error) : M A := fun w => Thrown e w.

Definition out_of_fuel {A : Type} : M A := fun w => OutOfFuel w.

(** [await] of a settled promise. *)
Definition await {A : Type} (p : Answer A) : M A :=
  match p with
  | Resolved a => mret a
  | Rejected e => throw e
  end.

Definition emit (ev : Event) : M unit := fun w =>
  Returned tt (mkWorld (clock w) (ev :: history w)).

Definition consult {A : Type} (oracle : nat -> A) : M A := fun w =>
  Returned (oracle (clock w)) (mkWorld (S (clock w)) (history w)).

Definition world_of {A : Type} (r : Outcome A) : World :=
  match r with
  | Returned _ w => w
  | Thrown _ w => w
  | OutOfFuel w => w
  end.

(** ** [class Network] *)

Module Network.
Section Network.

Context (env : Env) (options : NetworkOptions).

Definition logger (level : LogLevel) (line : string) : M unit :=
  emit (EvLog level line).

(** [lodash.sample]: a random element, [undefined] on an empty array. *)
Definition sample (peers : list IPeer) : M (option IPeer) :=
  match peers with
  | [] => mret None
  | _ :: _ =>
      r ← consult (random env);
      mret (peers !! (r `mod` length peers))
  end.

Definition probe (target : string) : M bool :=
  reachable ← consult (fun t => isReachable env t target);
  emit (EvIsReachable target reachable);;
  mret reachable.

Definition getPeers : M (list IPeer) :=
  answer ← consult (fun t => findPeersWithPlugin env t "core-api");
  emit (EvFindPeers "core-api" answer);;
  await answer.

Definition address (p : IPeer) : string := ip p +:+ ":" +:+ pretty (port p).

Fixpoint getPeer (fuel : nat) : M IPeer :=
  match fuel with
  | 0 => out_of_fuel
  | S fuel' =>
      if truthy (peer options) then
        mret (mkPeer (peer options) (peerPort options))
      else
        peers ← getPeers;
        sampled ← sample peers;
        match sampled with
        | None => throw (cannotRead "ip" "undefined")
        | Some peer =>
            reachable ← probe (address peer);
            if negb reachable then
              logger Warn (address peer +:+ " is unresponsive. Choosing new peer.");;
              getPeer fuel'
            else
              mret (mkPeer (ip peer) (port peer))
        end
  end.

(** [if (options.body && typeof options.body !== "string")
        options.body = JSON.stringify(options.body)] *)
Definition stringifyBody (opts : RequestOptions) : RequestOptions :=
  match body opts with
  | Some (BodyObject o) =>
      if truthy_value o && negb (is_string o) then
        {| query := query opts; body := Some (BodyString (JSON_stringify env o)) |}
      else
        opts
  | _ => opts
  end.

Definition requestUri (p : IPeer) (url : string) : string :=
  "http://" +:+ ip p +:+ ":" +:+ pretty (port p) +:+ "/api/" +:+ url.

Definition gotOptions (opts : RequestOptions) : GotOptions :=
  {| got_query := query opts;
     got_body := body opts;
     headers := [("Accept", "application/vnd.core-api.v2+json");
                 ("Content-Type", "application/json")];
     timeout := 3000 |}.

Definition request (method : HttpMethod) (uri : string) (opts : GotOptions)
  : M string :=
  answer ← consult (fun t => got env t method uri opts);
  emit (EvGot method uri opts answer);;
  await answer.

(** [`Sending request on "${this.options.network}" to "${uri}"`] *)
Definition sendingLine (uri : string) : string :=
  "Sending request on " +:+ dquote +:+ network options +:+ dquote
    +:+ " to " +:+ dquote +:+ uri +:+ dquote.

(** The [try] block of [sendRequest].  It assigns to [options.body];
    the object as the block leaves it is returned next to the outcome,
    because the [catch] block passes that same object on. *)
Definition sendRequest_try (fuel : nat) (method : HttpMethod) (url : string)
    (opts : RequestOptions) (w : World) : RequestOptions * Outcome JsValue :=
  match getPeer fuel w with
  | Returned peer w1 =>
      let uri := requestUri peer url in
      let opts' := stringifyBody opts in
      (opts',
       (logger Info (sendingLine uri);;
        body ← request method uri (gotOptions opts');
        await (JSON_parse env body)) w1)
  | Thrown e w1 => (opts, Thrown e w1)
  | OutOfFuel w1 => (opts, OutOfFuel w1)
  end.

Fixpoint sendRequest (fuel : nat) (method : HttpMethod) (url : string)
    (opts : RequestOptions) (tries : nat) : M JsValue :=
  match fuel with
  | 0 => out_of_fuel
  | S fuel' => fun w =>
      match sendRequest_try fuel' method url opts w with
      | (_, Returned v w') => Returned v w'
      | (_, OutOfFuel w') => OutOfFuel w'
      | (opts', Thrown error w') =>
          (logger Err (message error);;
           let tries := S tries in
           if (2 <? tries)%nat then
             logger Err "Failed to find a responsive peer after 3 tries.";;
             mret undefined
           else
             sendRequest fuel' method url opts' tries) w'
      end
  end.

(** The destructuring defaults [query = {}] and [body = {}]: the default
    is taken when the property is missing ([None]) and when it is
    [undefined]. *)
Definition orEmptyObject (given : option JsValue) : JsValue :=
  match given with
  | None | Some undefined => JObj []
  | Some v => v
  end.

Definition sendGET (fuel : nat) (path : string) (query : option JsValue)
  : M JsValue :=
  sendRequest fuel GET path
    {| query := Some (orEmptyObject query); body := None |} 0.

Definition sendPOST (fuel : nat) (path : string) (body : option JsValue)
  : M JsValue :=
  sendRequest fuel POST path
    {| query := None; body := Some (BodyObject (orEmptyObject body)) |} 0.

Definition getHeight (fuel : nat) : M JsValue :=
  response ← sendGET fuel "blockchain" None;
  data ← await (getProp response "data");
  block ← await (getProp data "block");
  await (getProp block "height").

Definition setHeight (height : JsValue) : M unit := emit (EvSetHeight height).

Definition setTimeout (callback : Callback) (ms : Z) : M unit :=
  emit (EvSetTimeout callback ms).

Definition checkForAip11Enabled (fuel : nat) : M unit :=
  height ← getHeight fuel;
  setHeight height;;
  let milestone := getMilestone env height in
  if negb (aip11 milestone) then
    setTimeout RunCheckForAip11Enabled (blocktime milestone * 1000)
  else
    mret tt.

End Network.
End Network.

(** ** Observations on histories *)

Fixpoint count_events (select : Event -> bool) (h : list Event) : nat :=
  match h with
  | [] => 0
  | ev :: rest => (if select ev then 1 else 0) + count_events select rest
  end.

Definition is_log (level : LogLevel) (ev : Event) : bool :=
  match ev, level with
  | EvLog Info _, Info | EvLog Warn _, Warn | EvLog Err _, Err => true
  | _, _ => false
  end.

Definition is_got (ev : Event) : bool :=
  match ev with EvGot _ _ _ _ => true | _ => false end.

Definition is_probe (ev : Event) : bool :=
  match ev with EvIsReachable _ _ => true | _ => false end.

Definition is_find_peers (ev : Event) : bool :=
  match ev with EvFindPeers _ _ => true | _ => false end.

Definition is_timer (ev : Event) : bool :=
  match ev with EvSetTimeout _ _ => true | _ => false end.

(** The events peer selection can leave behind. *)
Definition selection_event (ev : Event) : bool :=
  match ev with
  | EvFindPeers _ _ | EvIsReachable _ _ | EvLog Warn _ => true
  | _ => false
  end.

(** The events one [try] block can leave behind. *)
Definition try_event (ev : Event) : bool :=
  match ev with
  | EvFindPeers _ _ | EvIsReachable _ _ | EvLog Warn _ | EvLog Info _
  | EvGot _ _ _ _ => true
  | _ => false
  end.

Definition finished {A : Type} (r : Outcome A) : Prop :=
  match r with OutOfFuel _ => False | _ => True end.

(** The state in which [sendRequest] finds itself after [n] consecutive
    [try] blocks have thrown, each followed by the [logger.error] of the
    [catch] block: the [options] object as the last block left it, and
    the world.  [None] if one of the [n] blocks did not throw. *)
Fixpoint failedAttempts (env : Env) (options : NetworkOptions) (n fuel : nat)
    (method : HttpMethod) (url : string) (opts : RequestOptions) (w : World)
  : option (RequestOptions * World) :=
  match n with
  | 0 => Some (opts, w)
  | S n' =>
      match Network.sendRequest_try env options fuel method url opts w with
      | (opts', Thrown error w') =>
          failedAttempts env options n' fuel method url opts'
            (mkWorld (clock w') (EvLog Err (message error) :: history w'))
      | _ => None
      end
  end.

(** The event [ev], if it is a call of [got], is a [method] call with
    the options [gopts] to the [url] of some peer. *)
Definition issued_as (method : HttpMethod) (url : string) (gopts : GotOptions)
    (ev : Event) : Prop :=
  match ev with
  | EvGot m uri g _ =>
      m = method /\ g = gopts /\ exists p, uri = Network.requestUri p url
  | _ => True
  end.

(** Every HTTP request in the history [h] (newest first) comes right
    after a peer selection of its own.  With a seed peer that selection
    leaves no event, and the request goes to the seed.  Without one, the
    request follows the announcement of the request, which follows a
    successful probe of the peer [p] the request goes to, which follows
    the discovery call [p] was drawn from. *)
Fixpoint fresh_selection (options : NetworkOptions) (url : string)
    (h : list Event) : Prop :=
  match h with
  | [] => True
  | EvGot _ uri _ _ :: older =>
      (if truthy (peer options) then
         uri = Network.requestUri (mkPeer (peer options) (peerPort options)) url
       else
         exists p peers line before,
           older = EvLog Info line
                   :: EvIsReachable (Network.address p) true
                   :: EvFindPeers "core-api" (Resolved peers) :: before /\
           p ∈ peers /\
           uri = Network.requestUri p url) /\
      fresh_selection options url older
  | _ :: older => fresh_selection options url older
  end.

(** ** Wallet lookup: [getBIP38Wallet] and [decryptWIF] *)

(** [Interfaces.IDecryptResult], [Interfaces.IKeyPair] and [IWallet]. *)
Record DecryptResult : Type := { privateKey : list Byte.byte; compressed : bool }.

Record KeyPair : Type := {
  kp_publicKey : string;
  kp_privateKey : string;
  kp_compressed : bool
}.

Record IWallet : Type := { keys : KeyPair; wif : string }.

(** The cryptographic library and the configuration the helpers call into.
    [sha256_hex s] is [Crypto.HashAlgorithms.sha256(Buffer.from(s)).toString("hex")];
    [network_wif] is [Managers.configManager.get("network.wif")]. *)
Record CryptoLib : Type := {
  sha256_hex : string -> string;
  bip38_decrypt : string -> string -> Answer DecryptResult;
  wif_encode : Z -> list Byte.byte -> bool -> Answer string;
  Keys_fromWIF : string -> Answer KeyPair;
  network_wif : Z
}.

Module Wallet.
Section Wallet.

Context (lib : CryptoLib).

(** The key-value store of [../services/database]: [database.get(id)] is
    the stored string, or [undefined] when there is none. *)
Context (database : gmap string string).

(** [encryptedWif.toString("hex")] is [encryptedWif] itself: [toString]
    of a string ignores its argument. *)
Definition decryptWIF (encryptedWif userId bip38password : string) : Answer IWallet :=
  decrypted ← bip38_decrypt lib encryptedWif (bip38password +:+ userId);
  encodedWIF ← wif_encode lib (network_wif lib) (privateKey decrypted)
                 (compressed decrypted);
  keys ← Keys_fromWIF lib encodedWIF;
  mret {| keys := keys; wif := encodedWIF |}.

(** [None] is [undefined]. *)
Definition getBIP38Wallet (userId bip38password : string) : Answer (option IWallet) :=
  match database !! sha256_hex lib userId with
  | Some encryptedWif =>
      if truthy encryptedWif then
        wallet ← decryptWIF encryptedWif userId bip38password;
        mret (Some wallet)
      else
        mret None
  | None => mret None
  end.

End Wallet.
End Wallet.

(** ** Concrete worlds, used to run the definitions *)

Module Demo.

Definition seed_options : NetworkOptions :=
  {| network := "mainnet"; peer := "10.0.0.1"; maxLatency := 300; peerPort := 4003 |}.

Definition discovery_options : NetworkOptions :=
  {| network := "mainnet"; peer := EmptyString; maxLatency := 300; peerPort := 4003 |}.

Definition P1 : IPeer := mkPeer "10.0.0.1" 4003.
Definition P2 : IPeer := mkPeer "10.0.0.2" 4003.

Definition quoted (s : string) : string := dquote +:+ s +:+ dquote.

(** The body of a [blockchain] response at height 7. *)
Definition payload : string :=
  "{" +:+ quoted "data" +:+ ":{" +:+ quoted "block" +:+ ":{"
      +:+ quoted "height" +:+ ":7}}}".

Definition payload_value : JsValue :=
  JObj [("data", JObj [("block", JObj [("height", JNum 7)])])].

(** A stand-in for [JSON.parse] that knows one document. *)
Definition parse (s : string) : Answer JsValue :=
  if String.eqb s payload then Resolved payload_value
  else Rejected (mkError "Unexpected token in JSON at position 0").

Definition stringify (_ : JsValue) : string := "{}".

(** The target feature becomes active at height 10; blocks every 8 s. *)
Definition milestone_at (height : JsValue) : Milestone :=
  match height with
  | JNum n => {| aip11 := (10 <=? n)%Z; blocktime := 8 |}
  | _ => {| aip11 := false; blocktime := 8 |}
  end.

Definition milestone_active (_ : JsValue) : Milestone :=
  {| aip11 := true; blocktime := 8 |}.

(** Every peer answers the probe, none answers the request. *)
Definition offline : Env :=
  {| findPeersWithPlugin := fun _ _ => Resolved [P1; P2];
     random := fun t => t;
     isReachable := fun _ _ => true;
     got := fun _ _ _ _ => Rejected (mkError "connect ECONNREFUSED");
     JSON_parse := parse;
     JSON_stringify := stringify;
     getMilestone := milestone_at |}.

(** Every peer answers the probe and the request. *)
Definition healthy : Env :=
  {| findPeersWithPlugin := fun _ _ => Resolved [P1; P2];
     random := fun t => t;
     isReachable := fun _ _ => true;
     got := fun _ _ _ _ => Resolved payload;
     JSON_parse := parse;
     JSON_stringify := stringify;
     getMilestone := milestone_at |}.

(** As [healthy], at a height where the target feature is active. *)
Definition upgraded : Env :=
  {| findPeersWithPlugin := fun _ _ => Resolved [P1; P2];
     random := fun t => t;
     isReachable := fun _ _ => true;
     got := fun _ _ _ _ => Resolved payload;
     JSON_parse := parse;
     JSON_stringify := stringify;
     getMilestone := milestone_active |}.

(** [P1] and [P2] both answer the probe; [P1] refuses the request. The
    first draw (clock 1) lands on [P1], the second (clock 5) on [P2]. *)
Definition failover : Env :=
  {| findPeersWithPlugin := fun _ _ => Resolved [P1; P2];
     random := fun t => if t <? 4 then 0 else 1;
     isReachable := fun _ _ => true;
     got := fun _ _ uri _ =>
       if String.eqb uri "http://10.0.0.1:4003/api/blockchain"
       then Rejected (mkError "connect ECONNREFUSED")
       else Resolved payload;
     JSON_parse := parse;
     JSON_stringify := stringify;
     getMilestone := milestone_at |}.

(** One advertised peer, which never answers the probe. *)
Definition lonely : Env :=
  {| findPeersWithPlugin := fun _ _ => Resolved [P1];
     random := fun t => t;
     isReachable := fun _ _ => false;
     got := fun _ _ _ _ => Resolved payload;
     JSON_parse := parse;
     JSON_stringify := stringify;
     getMilestone := milestone_at |}.

(** Discovery knows no peer with the plugin. *)
Definition deserted : Env :=
  {| findPeersWithPlugin := fun _ _ => Resolved [];
     random := fun t => t;
     isReachable := fun _ _ => true;
     got := fun _ _ _ _ => Resolved payload;
     JSON_parse := parse;
     JSON_stringify := stringify;
     getMilestone := milestone_at |}.

Definition start : World := mkWorld 0 [].

(** The [options] that [sendGET] hands to [sendRequest] for a plain query. *)
Definition blockchain_query : RequestOptions :=
  {| query := Some (JObj []); body := None |}.

(** The run of [sendGET] in the world [failover]: [P1] is drawn, passes
    the probe and refuses the request; the retry draws [P2], which passes
    the probe and answers. *)
Definition failover_history : list Event :=
  [EvGot GET "http://10.0.0.2:4003/api/blockchain"
     (Network.gotOptions blockchain_query) (Resolved payload);
   EvLog Info (Network.sendingLine discovery_options
                 "http://10.0.0.2:4003/api/blockchain");
   EvIsReachable "10.0.0.2:4003" true;
   EvFindPeers "core-api" (Resolved [P1; P2]);
   EvLog Err "connect ECONNREFUSED";
   EvGot GET "http://10.0.0.1:4003/api/blockchain"
     (Network.gotOptions blockchain_query)
     (Rejected (mkError "connect ECONNREFUSED"));
   EvLog Info (Network.sendingLine discovery_options
                 "http://10.0.0.1:4003/api/blockchain");
   EvIsReachable "10.0.0.1:4003" true;
   EvFindPeers "core-api" (Resolved [P1; P2])].

(** What one refused attempt against the seed peer leaves in the history. *)
Definition refused : list Event :=
  [EvLog Err "connect ECONNREFUSED";
   EvGot GET "http://10.0.0.1:4003/api/blockchain"
     (Network.gotOptions blockchain_query)
     (Rejected (mkError "connect ECONNREFUSED"));
   EvLog Info (Network.sendingLine seed_options "http://10.0.0.1:4003/api/blockchain")].

(** A crypto library that decrypts everything to a fixed key. *)
Definition toy_lib : CryptoLib :=
  {| sha256_hex := fun s => "sha256:" +:+ s;
     bip38_decrypt := fun _ _ => Resolved {| privateKey := []; compressed := true |};
     wif_encode := fun _ _ _ => Resolved "WIF";
     Keys_fromWIF := fun w =>
       Resolved {| kp_publicKey := "pub"; kp_privateKey := "priv";
                   kp_compressed := true |};
     network_wif := 170 |}.

(** A store with one user whose stored value is the empty string, and a
    store with one user whose stored value is an encrypted WIF. *)
Definition blank_store : gmap string string := {[ "sha256:alice" := EmptyString ]}.

Definition store : gmap string string := {[ "sha256:alice" := "6PYencrypted" ]}.

Definition toy_wallet : IWallet :=
  {| keys := {| kp_publicKey := "pub"; kp_privateKey := "priv";
                kp_compressed := true |};
     wif := "WIF" |}.

End Demo.

(** ** The watcher over time, and further observations *)

(** The chain of watcher iterations.  [checkForAip11Enabled] hands the
    runtime the closure [() => this.checkForAip11Enabled()]; when the
    timer fires the runtime calls it.  An iteration that has just set
    the timer ends with that [setTimeout] as the newest event; the next
    iteration then starts from the world the previous one left ([rounds]
    bounds the number of iterations followed; other callers that might
    run in between are left out). *)
Fixpoint watcher (env : Env) (options : NetworkOptions) (rounds fuel : nat)
  : M unit :=
  match rounds with
  | 0 => out_of_fuel
  | S rounds' => fun w =>
      match Network.checkForAip11Enabled env options fuel w with
      | Returned _ w' =>
          match history w' with
          | EvSetTimeout RunCheckForAip11Enabled _ :: _ =>
              watcher env options rounds' fuel w'
          | _ => Returned tt w'
          end
      | Thrown e w' => Thrown e w'
      | OutOfFuel w' => OutOfFuel w'
      end
  end.

Definition is_set_height (ev : Event) : bool :=
  match ev with EvSetHeight _ => true | _ => false end.

(** The events a [sendRequest] call can leave behind: anything but a
    write of the height or a timer. *)
Definition dispatch_event (ev : Event) : bool :=
  match ev with
  | EvSetHeight _ | EvSetTimeout _ _ => false
  | _ => true
  end.

(** The attempts a [sendRequest] call entered with [tries] can make: it
    always makes one, and retries while [tries + 1 <= 2]. *)
Definition attempts_left (tries : nat) : nat := Nat.max 1 (3 - tries).

(** [null] and [undefined], the values whose properties cannot be read. *)
Definition nullish (v : JsValue) : bool :=
  match v with
  | undefined | JNull => true
  | _ => false
  end.

(** [v.key] where it can be read, [undefined] where reading throws. *)
Definition field (v : JsValue) (key : string) : JsValue :=
  match getProp v key with
  | Resolved x => x
  | Rejected _ => undefined
  end.

(** More concrete worlds. *)
Module Cases.

(** The response [{}]: valid JSON without [data]. *)
Definition parse_empty (s : string) : Answer JsValue :=
  if String.eqb s "{}" then Resolved (JObj [])
  else Rejected (mkError "Unexpected token in JSON at position 0").

(** Peers answer every request with [{}]. *)
Definition hollow : Env :=
  {| findPeersWithPlugin := fun _ _ => Resolved [Demo.P1; Demo.P2];
     random := fun t => t;
     isReachable := fun _ _ => true;
     got := fun _ _ _ _ => Resolved "{}";
     JSON_parse := parse_empty;
     JSON_stringify := Demo.stringify;
     getMilestone := Demo.milestone_at |}.

(** A block without [height]. *)
Definition headless_value : JsValue :=
  JObj [("data", JObj [("block", JObj [("id", JStr "b1")])])].

Definition parse_headless (s : string) : Answer JsValue :=
  if String.eqb s "headless" then Resolved headless_value
  else Rejected (mkError "Unexpected token in JSON at position 0").

Definition headless : Env :=
  {| findPeersWithPlugin := fun _ _ => Resolved [Demo.P1; Demo.P2];
     random := fun t => t;
     isReachable := fun _ _ => true;
     got := fun _ _ _ _ => Resolved "headless";
     JSON_parse := parse_headless;
     JSON_stringify := Demo.stringify;
     getMilestone := Demo.milestone_at |}.

(** Discovery itself is down. *)
Definition undiscoverable : Env :=
  {| findPeersWithPlugin := fun _ _ => Rejected (mkError "getaddrinfo ENOTFOUND");
     random := fun t => t;
     isReachable := fun _ _ => true;
     got := fun _ _ _ _ => Resolved Demo.payload;
     JSON_parse := Demo.parse;
     JSON_stringify := Demo.stringify;
     getMilestone := Demo.milestone_at |}.

(** [P1] never answers the probe, [P2] always does; the draws at clocks
    1 and 4 land on [P1], the draw at clock 7 on [P2]. *)
Definition patchy : Env :=
  {| findPeersWithPlugin := fun _ _ => Resolved [Demo.P1; Demo.P2];
     random := fun t => if t <? 7 then 0 else 1;
     isReachable := fun _ target => String.eqb target "10.0.0.2:4003";
     got := fun _ _ _ _ => Resolved Demo.payload;
     JSON_parse := Demo.parse;
     JSON_stringify := Demo.stringify;
     getMilestone := Demo.milestone_at |}.

(** A library whose [bip38.decrypt] accepts one password for [alice]. *)
Definition strict_lib : CryptoLib :=
  {| sha256_hex := fun s => "sha256:" +:+ s;
     bip38_decrypt := fun _ key =>
       if String.eqb key "secretalice"
       then Resolved {| privateKey := []; compressed := true |}
       else Rejected (mkError "Incorrect passphrase.");
     wif_encode := fun _ _ _ => Resolved "WIF";
     Keys_fromWIF := fun w =>
       Resolved {| kp_publicKey := "pub"; kp_privateKey := "priv";
                   kp_compressed := true |};
     network_wif := 170 |}.

End Cases.

(** * Lemmas *)

(** Runs the monadic plumbing of a goal down to matches on the oracles. *)
Ltac run_monad :=
  unfold Network.getPeers, Network.sample, Network.probe, Network.request,
    Network.logger, Network.setHeight, Network.setTimeout,
    mbind, M_bind, mret, M_ret, consult, emit, await, throw;
  cbn.

(** Runs the first computation of a bind whose outcome [H] gives. *)
Ltac run_first H := unfold mbind at 1, M_bind; rewrite H.

(** ** The definitions at work *)

Example getProp_chain :
  (data ← getProp Demo.payload_value "data";
   block ← getProp data "block";
   getProp block "height") = Resolved (JNum 7).
Proof. reflexivity. Qed.

Example getProp_missing : getProp (JObj []) "data" = Resolved undefined.
Proof. reflexivity. Qed.

Example getProp_of_null : getProp JNull "block" = Rejected (cannotRead "block" "null").
Proof. reflexivity. Qed.

(** Three rounds against the one peer that never answers the probe. *)
Example lonely_three_rounds :
  Network.getPeer Demo.lonely Demo.discovery_options 3 Demo.start =
    OutOfFuel
      (mkWorld 9
         [EvLog Warn "10.0.0.1:4003 is unresponsive. Choosing new peer.";
          EvIsReachable "10.0.0.1:4003" false;
          EvFindPeers "core-api" (Resolved [Demo.P1]);
          EvLog Warn "10.0.0.1:4003 is unresponsive. Choosing new peer.";
          EvIsReachable "10.0.0.1:4003" false;
          EvFindPeers "core-api" (Resolved [Demo.P1]);
          EvLog Warn "10.0.0.1:4003 is unresponsive. Choosing new peer.";
          EvIsReachable "10.0.0.1:4003" false;
          EvFindPeers "core-api" (Resolved [Demo.P1])]).
Proof. reflexivity. Qed.

(** With no candidate, each of the three attempts dies in peer selection
    and no request is ever issued. *)
Example deserted_post :
  Network.sendPOST Demo.deserted Demo.discovery_options 4 "transactions" None
    Demo.start =
    Returned undefined
      (mkWorld 3
         [EvLog Err "Failed to find a responsive peer after 3 tries.";
          EvLog Err "Cannot read property 'ip' of undefined";
          EvFindPeers "core-api" (Resolved []);
          EvLog Err "Cannot read property 'ip' of undefined";
          EvFindPeers "core-api" (Resolved []);
          EvLog Err "Cannot read property 'ip' of undefined";
          EvFindPeers "core-api" (Resolved [])]).
Proof. reflexivity. Qed.

(** The body of a POST is serialised once, before the request. *)
Example healthy_post :
  Network.sendPOST Demo.healthy Demo.seed_options 2 "transactions" None Demo.start =
    Returned Demo.payload_value
      (mkWorld 1
         [EvGot POST "http://10.0.0.1:4003/api/transactions"
            {| got_query := None;
               got_body := Some (BodyString "{}");
               headers := [("Accept", "application/vnd.core-api.v2+json");
                           ("Content-Type", "application/json")];
               timeout := 3000 |}
            (Resolved Demo.payload);
          EvLog Info (Network.sendingLine Demo.seed_options
                        "http://10.0.0.1:4003/api/transactions")]).
Proof. reflexivity. Qed.

(** Once the target feature is active the watcher sets no timer. *)
Example upgraded_watcher_stops :
  Network.checkForAip11Enabled Demo.upgraded Demo.seed_options 2 Demo.start =
    Returned tt
      (mkWorld 1
         [EvSetHeight (JNum 7);
          EvGot GET "http://10.0.0.1:4003/api/blockchain"
            (Network.gotOptions Demo.blockchain_query) (Resolved Demo.payload);
          EvLog Info (Network.sendingLine Demo.seed_options
                        "http://10.0.0.1:4003/api/blockchain")]).
Proof. reflexivity. Qed.

(** ** Histories *)

Lemma count_events_app select h1 h2 :
  count_events select (h1 ++ h2) = count_events select h1 + count_events select h2.
Proof. induction h1 as [|ev h1 IH]; simpl; [done | rewrite IH; lia]. Qed.

Lemma count_events_none select (keep : Event -> bool) h :
  Forall (fun ev => keep ev = true) h ->
  (forall ev, keep ev = true -> select ev = false) ->
  count_events select h = 0.
Proof.
  intros Hall Hdisj. induction Hall as [|ev h Hev _ IH]; simpl; [done |].
  by rewrite (Hdisj ev Hev), IH.
Qed.

Section NetworkFacts.

Context (env : Env) (options : NetworkOptions).

Abbreviation getPeer := (Network.getPeer env options).
Abbreviation address := Network.address.

(** One iteration of [getPeer] when no seed peer is configured. *)
Lemma getPeer_unfold fuel w :
  truthy (peer options) = false ->
  getPeer (S fuel) w =
    let t := clock w in
    let answer := findPeersWithPlugin env t "core-api" in
    let h1 := EvFindPeers "core-api" answer :: history w in
    match answer with
    | Rejected e => Thrown e (mkWorld (S t) h1)
    | Resolved [] =>
        Thrown (cannotRead "ip" "undefined") (mkWorld (S t) h1)
    | Resolved peers =>
        match peers !! (random env (S t) `mod` length peers) with
        | None =>
            Thrown (cannotRead "ip" "undefined")
                   (mkWorld (S (S t)) h1)
        | Some p =>
            let reachable := isReachable env (S (S t)) (address p) in
            let h2 := EvIsReachable (address p) reachable :: h1 in
            if reachable then
              Returned (mkPeer (ip p) (port p)) (mkWorld (S (S (S t))) h2)
            else
              getPeer fuel
                (mkWorld (S (S (S t)))
                   (EvLog Warn (address p +:+ " is unresponsive. Choosing new peer.")
                    :: h2))
        end
    end.
Proof.
  intros Hseed. cbn [Network.getPeer]. rewrite Hseed.
  run_monad.
  destruct (findPeersWithPlugin env (clock w) "core-api") as [[|q peers]|e]; cbn;
    [done | | done].
  destruct (_ !! _) as [p|]; cbn; [|done].
  by destruct (isReachable env _ _).
Qed.

Lemma getPeer_seeded fuel w :
  truthy (peer options) = true ->
  getPeer (S fuel) w = Returned (mkPeer (peer options) (peerPort options)) w.
Proof. intros Hseed. cbn [Network.getPeer]. by rewrite Hseed. Qed.

(** More fuel never changes a finished run of [getPeer]. *)
Lemma getPeer_more_fuel fuel fuel' w :
  finished (getPeer fuel w) -> fuel <= fuel' -> getPeer fuel' w = getPeer fuel w.
Proof.
  revert fuel' w. induction fuel as [|fuel IH]; intros fuel' w Hfin Hle; [done |].
  destruct fuel' as [|fuel']; [lia |].
  destruct (truthy (peer options)) eqn:Hseed.
  - by rewrite !getPeer_seeded.
  - rewrite !getPeer_unfold in * by done. cbn zeta in *.
    destruct (findPeersWithPlugin env (clock w) "core-api") as [[|q peers]|e];
      [done | | done].
    destruct (_ !! _) as [p|]; [|done].
    destruct (isReachable env _ _); [done |].
    apply IH; [done | lia].
Qed.

(** What [getPeer] leaves in the world, whatever its outcome. *)
Lemma getPeer_history fuel w :
  exists new,
    history (world_of (getPeer fuel w)) = new ++ history w /\
    Forall (fun ev => selection_event ev = true) new /\
    (truthy (peer options) = true -> new = []).
Proof.
  revert w. induction fuel as [|fuel IH]; intros w.
  { exists []. by repeat split. }
  destruct (truthy (peer options)) eqn:Hseed.
  { rewrite getPeer_seeded by done. exists []. by repeat split. }
  rewrite getPeer_unfold by done. cbn zeta.
  destruct (findPeersWithPlugin env (clock w) "core-api") as [[|q peers']|e] eqn:Hfind.
  1,3: eexists [_]; cbn; repeat split; [|done]; by repeat constructor.
  set (peers := q :: peers') in *.
  destruct (peers !! _) as [p|].
  2:{ eexists [_]. cbn. repeat split; [|done]. by repeat constructor. }
  destruct (isReachable env _ _).
  { eexists [_; _]. cbn. repeat split; [|done]. by repeat constructor. }
  destruct (IH (mkWorld (S (S (S (clock w))))
                  (EvLog Warn (address p +:+ " is unresponsive. Choosing new peer.")
                   :: EvIsReachable (address p) false
                   :: EvFindPeers "core-api" (Resolved peers) :: history w)))
    as (new & Hnew & Hall & _).
  exists (new ++ [EvLog Warn (address p +:+ " is unresponsive. Choosing new peer.");
                  EvIsReachable (address p) false;
                  EvFindPeers "core-api" (Resolved peers)]).
  rewrite Hnew. cbn. rewrite <- app_assoc. repeat split; [|done].
  apply Forall_app. split; [done |]. by repeat constructor.
Qed.

End NetworkFacts.


(** * Peer selection *)

(** C3.  With a seed peer configured, [getPeer] returns
    [{ ip: options.peer, port: options.peerPort }] and leaves the world
    as it found it: no discovery call, no reachability probe, whatever
    the collaborators would have answered and whenever it is called. *)
Theorem getPeer_seed_verbatim (env : Env) (options : NetworkOptions)
    (fuel : nat) (w : World) :
  truthy (peer options) = true ->
  Network.getPeer env options (S fuel) w =
    Returned (mkPeer (peer options) (peerPort options)) w.
Proof. apply getPeer_seeded. Qed.

Lemma getPeer_seed_verbatim_witness :
  Network.getPeer Demo.deserted Demo.seed_options 1 Demo.start =
    Returned (mkPeer "10.0.0.1" 4003) Demo.start.
Proof. apply (getPeer_seed_verbatim Demo.deserted Demo.seed_options 0). reflexivity. Defined.

(** C5.  Without a seed peer, a peer that [getPeer] returns was the
    target of the last thing [getPeer] did: a reachability probe of its
    [ip:port] that answered [true]. *)
Theorem getPeer_returns_probed_peer (env : Env) (options : NetworkOptions)
    (fuel : nat) (w w' : World) (p : IPeer) :
  truthy (peer options) = false ->
  Network.getPeer env options fuel w = Returned p w' ->
  exists t rest,
    clock w <= t /\ clock w' = S t /\
    isReachable env t (Network.address p) = true /\
    history w' = EvIsReachable (Network.address p) true :: rest.
Proof.
  intros Hseed. revert w. induction fuel as [|fuel IH]; intros w Hrun; [done |].
  rewrite getPeer_unfold in Hrun by done. cbn zeta in Hrun.
  destruct (findPeersWithPlugin env (clock w) "core-api") as [[|q peers]|e];
    [done | | done].
  destruct (_ !! _) as [c|]; [|done].
  destruct (isReachable env (S (S (clock w))) (Network.address c)) eqn:Hprobe.
  - injection Hrun as <- <-. exists (S (S (clock w))). eexists.
    repeat split; [cbn; lia | done].
  - apply IH in Hrun as (t & rest & Hle & Hclock & Hreach & Hhist).
    exists t, rest. repeat split; [cbn in Hle; lia | done..].
Qed.

Lemma getPeer_returns_probed_peer_witness :
  exists t rest,
    0 <= t /\ 3 = S t /\
    isReachable Demo.healthy t "10.0.0.2:4003" = true /\
    [EvIsReachable "10.0.0.2:4003" true;
     EvFindPeers "core-api" (Resolved [Demo.P1; Demo.P2])]
      = EvIsReachable "10.0.0.2:4003" true :: rest.
Proof.
  apply (getPeer_returns_probed_peer Demo.healthy Demo.discovery_options 1 Demo.start
           (mkWorld 3 [EvIsReachable "10.0.0.2:4003" true;
                       EvFindPeers "core-api" (Resolved [Demo.P1; Demo.P2])])
           Demo.P2); reflexivity.
Defined.

(** C8.  Without a seed peer, when discovery answers with an empty list
    [getPeer] produces no peer at all: it throws (the TypeError of
    reading [ip] of [undefined]) as soon as it has the list. *)
Theorem getPeer_no_candidate (env : Env) (options : NetworkOptions) (w : World) :
  truthy (peer options) = false ->
  findPeersWithPlugin env (clock w) "core-api" = Resolved [] ->
  (forall fuel,
     Network.getPeer env options (S fuel) w =
       Thrown (cannotRead "ip" "undefined")
         (mkWorld (S (clock w))
            (EvFindPeers "core-api" (Resolved []) :: history w))) /\
  (forall fuel p w', Network.getPeer env options fuel w <> Returned p w').
Proof.
  intros Hseed Hfind.
  assert (Hthrow : forall fuel,
     Network.getPeer env options (S fuel) w =
       Thrown (cannotRead "ip" "undefined")
         (mkWorld (S (clock w))
            (EvFindPeers "core-api" (Resolved []) :: history w))).
  { intros fuel. rewrite getPeer_unfold by done. cbn zeta. by rewrite Hfind. }
  split; [done |].
  intros [|fuel] p w'; [done |]. by rewrite Hthrow.
Qed.

Lemma getPeer_no_candidate_witness :
  Network.getPeer Demo.deserted Demo.discovery_options 4 Demo.start =
    Thrown (cannotRead "ip" "undefined")
      (mkWorld 1 [EvFindPeers "core-api" (Resolved [])]) /\
  Network.getPeer Demo.deserted Demo.discovery_options 4 Demo.start
    <> Returned Demo.P1 Demo.start.
Proof.
  destruct (getPeer_no_candidate Demo.deserted Demo.discovery_options Demo.start)
    as [Hthrow Hnever]; [reflexivity.. |].
  split; [apply (Hthrow 3) | apply (Hnever 4)].
Defined.

(** C4.  Without a seed peer, if from now on discovery always advertises
    some peer and no advertised peer ever answers the probe, then
    - the first iteration logs the warning for the peer it drew and
      calls [getPeer] again, with nothing carried over (no exclusion
      list) and no timer set (no delay);
    - [getPeer] never finishes: whatever the fuel, it is still running
      when the fuel is spent, having by then made one discovery call,
      one probe and one warning per unit of fuel, and set no timer. *)
Theorem getPeer_unbounded_resampling (env : Env) (options : NetworkOptions) (w : World) :
  truthy (peer options) = false ->
  (forall t, clock w <= t ->
     exists peers,
       findPeersWithPlugin env t "core-api" = Resolved peers /\
       peers <> [] /\
       forall p t', p ∈ peers -> isReachable env t' (Network.address p) = false) ->
  (exists peers p,
     findPeersWithPlugin env (clock w) "core-api" = Resolved peers /\
     p ∈ peers /\
     forall fuel,
       Network.getPeer env options (S fuel) w =
         Network.getPeer env options fuel
           (mkWorld (3 + clock w)
              (EvLog Warn (Network.address p +:+ " is unresponsive. Choosing new peer.")
               :: EvIsReachable (Network.address p) false
               :: EvFindPeers "core-api" (Resolved peers) :: history w))) /\
  (forall fuel,
     exists w',
       Network.getPeer env options fuel w = OutOfFuel w' /\
       clock w' = 3 * fuel + clock w /\
       count_events is_find_peers (history w') =
         fuel + count_events is_find_peers (history w) /\
       count_events is_probe (history w') = fuel + count_events is_probe (history w) /\
       count_events (is_log Warn) (history w') =
         fuel + count_events (is_log Warn) (history w) /\
       count_events is_timer (history w') = count_events is_timer (history w)).
Proof.
  intros Hseed Hdown.
  assert (Hstep : forall w0, clock w <= clock w0 ->
    exists peers p,
      findPeersWithPlugin env (clock w0) "core-api" = Resolved peers /\
      p ∈ peers /\
      forall fuel,
        Network.getPeer env options (S fuel) w0 =
          Network.getPeer env options fuel
            (mkWorld (3 + clock w0)
               (EvLog Warn (Network.address p +:+ " is unresponsive. Choosing new peer.")
                :: EvIsReachable (Network.address p) false
                :: EvFindPeers "core-api" (Resolved peers) :: history w0))).
  { intros w0 Hle. destruct (Hdown _ Hle) as (peers & Hfind & Hne & Hunreach).
    destruct peers as [|q peers']; [done |]. set (peers := q :: peers') in *.
    destruct (lookup_lt_is_Some_2 peers
                (random env (S (clock w0)) `mod` length peers)) as [p Hp].
    { apply Nat.mod_upper_bound. done. }
    assert (Hin : p ∈ peers) by (apply list_elem_of_lookup; eauto).
    exists peers, p. repeat split; [done..|].
    intros fuel. rewrite getPeer_unfold by done. cbn zeta.
    rewrite Hfind. subst peers. rewrite Hp.
    by rewrite (Hunreach p _ Hin). }
  split; [by apply Hstep |].
  intros fuel. assert (Hle : clock w <= clock w) by lia.
  revert Hle. generalize w at 2 3 4 5 6 7 8 as w0.
  induction fuel as [|fuel IH]; intros w0 Hle.
  { exists w0. repeat split; lia. }
  destruct (Hstep w0 Hle) as (peers & p & _ & _ & Heq). rewrite Heq.
  match goal with
  | |- context [Network.getPeer _ _ fuel ?w1] =>
      destruct (IH w1) as (w' & -> & Hclock & Hfind & Hprobe & Hwarn & Htimer)
  end.
  { cbn. lia. }
  exists w'. cbn in *. repeat split; lia.
Qed.

Lemma getPeer_unbounded_resampling_witness :
  exists w',
    Network.getPeer Demo.lonely Demo.discovery_options 5 Demo.start = OutOfFuel w' /\
    clock w' = 15 /\
    count_events (is_log Warn) (history w') = 5.
Proof.
  destruct (getPeer_unbounded_resampling Demo.lonely Demo.discovery_options Demo.start)
    as [_ Hforever].
  - reflexivity.
  - intros t _. exists [Demo.P1]. split; [reflexivity |]. split; [done |].
    intros p t' _. reflexivity.
  - destruct (Hforever 5) as (w' & Hrun & Hclock & _ & _ & Hwarn & _).
    exists w'. repeat split; assumption.
Defined.

(** * The dispatcher *)

Lemma fresh_selection_app options url h1 h2 :
  fresh_selection options url h1 -> fresh_selection options url h2 ->
  fresh_selection options url (h1 ++ h2).
Proof.
  intros H1 H2. induction h1 as [|ev h1 IH]; [done |].
  destruct ev; cbn in *; try by apply IH.
  destruct H1 as [Hsel H1]. split; [|by apply IH].
  destruct (truthy (peer options)); [done |].
  destruct Hsel as (p & peers & line & before & -> & Hin & ->).
  by exists p, peers, line, (before ++ h2).
Qed.

Lemma fresh_selection_quiet options url h :
  Forall (fun ev => is_got ev = false) h -> fresh_selection options url h.
Proof. induction 1 as [|ev h Hev _ IH]; [done |]. by destruct ev. Qed.

Lemma selection_event_quiet h :
  Forall (fun ev => selection_event ev = true) h ->
  Forall (fun ev => is_got ev = false) h.
Proof. intros Hall. eapply Forall_impl; [exact Hall |]. by intros []. Qed.

Lemma selection_event_try h :
  Forall (fun ev => selection_event ev = true) h ->
  Forall (fun ev => try_event ev = true) h.
Proof.
  intros Hall. eapply Forall_impl; [exact Hall |].
  intros []; try done. by destruct level.
Qed.

Section DispatchFacts.

Context (env : Env) (options : NetworkOptions).

Abbreviation getPeer := (Network.getPeer env options).
Abbreviation sendRequest_try := (Network.sendRequest_try env options).
Abbreviation sendRequest := (Network.sendRequest env options).

(** Without a seed peer, a returned peer comes with the probe that
    accepted it and the discovery call it was drawn from. *)
Lemma getPeer_selected fuel w p w' :
  truthy (peer options) = false ->
  getPeer fuel w = Returned p w' ->
  exists peers before,
    history w' = EvIsReachable (Network.address p) true
                 :: EvFindPeers "core-api" (Resolved peers)
                 :: before ++ history w /\
    p ∈ peers /\
    Forall (fun ev => selection_event ev = true) before.
Proof.
  intros Hseed. revert w. induction fuel as [|fuel IH]; intros w Hrun; [done |].
  rewrite getPeer_unfold in Hrun by done. cbn zeta in Hrun.
  destruct (findPeersWithPlugin env (clock w) "core-api") as [[|q peers']|e];
    [done | | done].
  set (peers := q :: peers') in *.
  destruct (peers !! _) as [c|] eqn:Hdraw; [|done].
  destruct (isReachable env _ _).
  - injection Hrun as <- <-. exists peers, []. repeat split; [|done].
    destruct c. apply list_elem_of_lookup. eauto.
  - apply IH in Hrun as (peers0 & before & -> & Hin & Hall). cbn.
    exists peers0,
      (before ++ [EvLog Warn (Network.address c +:+ " is unresponsive. Choosing new peer.");
                  EvIsReachable (Network.address c) false;
                  EvFindPeers "core-api" (Resolved peers)]).
    rewrite <- app_assoc. repeat split; [done |].
    apply Forall_app. split; [done |]. by repeat constructor.
Qed.

(** The [try] block once peer selection has returned [p]. *)
Lemma sendRequest_try_selected fuel method url opts w p w1 :
  getPeer fuel w = Returned p w1 ->
  sendRequest_try fuel method url opts w =
    let opts' := Network.stringifyBody env opts in
    let uri := Network.requestUri p url in
    let answer := got env (clock w1) method uri (Network.gotOptions opts') in
    let w3 := mkWorld (S (clock w1))
                (EvGot method uri (Network.gotOptions opts') answer
                 :: EvLog Info (Network.sendingLine options uri) :: history w1) in
    (opts',
     match answer with
     | Rejected e => Thrown e w3
     | Resolved text =>
         match JSON_parse env text with
         | Resolved v => Returned v w3
         | Rejected e => Thrown e w3
         end
     end).
Proof.
  intros Hsel. unfold Network.sendRequest_try. rewrite Hsel. cbn zeta. f_equal.
  run_monad.
  destruct (got env (clock w1) method _ _) as [text|e]; cbn; [|done].
  by destruct (JSON_parse env text).
Qed.

Lemma sendRequest_try_more_fuel fuel fuel' method url opts w :
  finished (sendRequest_try fuel method url opts w).2 -> fuel <= fuel' ->
  sendRequest_try fuel' method url opts w = sendRequest_try fuel method url opts w.
Proof.
  intros Hfin Hle. unfold Network.sendRequest_try in *.
  rewrite (getPeer_more_fuel env options fuel fuel' w); [done | | done].
  by destruct (getPeer fuel w).
Qed.

Lemma stringifyBody_idem opts :
  Network.stringifyBody env (Network.stringifyBody env opts) =
    Network.stringifyBody env opts.
Proof.
  destruct opts as [q [[text|o]|]]; try done.
  unfold Network.stringifyBody; cbn.
  by destruct (truthy_value o && negb (is_string o)) eqn:Hguard; cbn; rewrite ?Hguard.
Qed.

Lemma issued_as_quiet method url gopts h :
  Forall (fun ev => is_got ev = false) h -> Forall (issued_as method url gopts) h.
Proof. intros Hall. eapply Forall_impl; [exact Hall |]. by intros []. Qed.

(** What one [try] block leaves in the world: events of peer selection
    and at most one request, issued right after a selection; and what
    it leaves in [options]. *)
Lemma sendRequest_try_history fuel method url opts w :
  exists new,
    history (world_of (sendRequest_try fuel method url opts w).2) = new ++ history w /\
    Forall (fun ev => try_event ev = true) new /\
    count_events is_got new <= 1 /\
    fresh_selection options url new /\
    Forall (issued_as method url (Network.gotOptions (Network.stringifyBody env opts)))
      new /\
    Network.stringifyBody env (sendRequest_try fuel method url opts w).1 =
      Network.stringifyBody env opts.
Proof.
  destruct (getPeer_history env options fuel w) as (sel & Hsel & Hall & Hseeded).
  assert (Hquiet := selection_event_quiet _ Hall).
  destruct (getPeer fuel w) as [p w1|e w1|w1] eqn:Hrun.
  2,3: unfold Network.sendRequest_try; rewrite Hrun; cbn in *; exists sel;
    split; [done |];
    split; [by apply selection_event_try |];
    split; [rewrite (count_events_none is_got selection_event);
            [lia | done | by intros []] |];
    split; [by apply fresh_selection_quiet |];
    split; [by apply issued_as_quiet | done].
  rewrite (sendRequest_try_selected _ _ _ _ _ _ _ Hrun). cbn in Hsel. cbn zeta.
  set (uri := Network.requestUri p url).
  set (gopts := Network.gotOptions _).
  set (answer := got env _ _ _ _).
  exists (EvGot method uri gopts answer
          :: EvLog Info (Network.sendingLine options uri) :: sel).
  assert (Hhist : forall r : Outcome JsValue,
            world_of r = mkWorld (S (clock w1))
              (EvGot method uri gopts answer
               :: EvLog Info (Network.sendingLine options uri) :: history w1) ->
            history (world_of r) =
              (EvGot method uri gopts answer
               :: EvLog Info (Network.sendingLine options uri) :: sel) ++ history w).
  { intros r ->. cbn. by rewrite Hsel. }
  split; [|split; [|split; [|split; [|split]]]].
  - apply Hhist. cbn. destruct answer as [text|e]; [|done].
    by destruct (JSON_parse env text).
  - repeat constructor. by apply selection_event_try.
  - cbn. rewrite (count_events_none is_got selection_event); [lia | done | by intros []].
  - cbn. split; [|by apply fresh_selection_quiet].
    destruct (truthy (peer options)) eqn:Hseed.
    + destruct fuel as [|fuel]; [done |].
      rewrite getPeer_seeded in Hrun by done. by injection Hrun as <- _.
    + destruct (getPeer_selected _ _ _ _ Hseed Hrun) as (peers & before & Hw1 & Hin & _).
      rewrite Hsel in Hw1.
      exists p, peers, (Network.sendingLine options uri), before.
      repeat split; [|done..]. f_equal.
      change (EvIsReachable (Network.address p) true
              :: EvFindPeers "core-api" (Resolved peers) :: before ++ history w)
        with ((EvIsReachable (Network.address p) true
               :: EvFindPeers "core-api" (Resolved peers) :: before) ++ history w) in Hw1.
      by apply app_inv_tail in Hw1.
  - constructor; [cbn; by eauto |].
    constructor; [done |]. by apply issued_as_quiet.
  - cbn. apply stringifyBody_idem.
Qed.

Lemma sendRequest_unfold fuel method url opts tries w :
  sendRequest (S fuel) method url opts tries w =
    match sendRequest_try fuel method url opts w with
    | (_, Returned v w') => Returned v w'
    | (_, OutOfFuel w') => OutOfFuel w'
    | (opts', Thrown error w') =>
        let w'' := mkWorld (clock w') (EvLog Err (message error) :: history w') in
        if 2 <? S tries then
          Returned undefined
            (mkWorld (clock w')
               (EvLog Err "Failed to find a responsive peer after 3 tries."
                :: history w''))
        else
          sendRequest fuel method url opts' (S tries) w''
    end.
Proof.
  cbn [Network.sendRequest].
  destruct (sendRequest_try fuel method url opts w) as [opts' [v w'|e w'|w']]; try done.
  run_monad.
  by destruct tries as [|[|[|tries]]].
Qed.

(** Every request [sendRequest] issues, on the first attempt or on a
    retry, comes right after a peer selection of its own, and carries
    the same method and options. *)
Lemma sendRequest_history fuel method url opts tries w :
  exists new,
    history (world_of (sendRequest fuel method url opts tries w)) = new ++ history w /\
    fresh_selection options url new /\
    Forall (issued_as method url (Network.gotOptions (Network.stringifyBody env opts)))
      new.
Proof.
  revert opts tries w. induction fuel as [|fuel IH]; intros opts tries w.
  { by exists []. }
  rewrite sendRequest_unfold.
  destruct (sendRequest_try_history fuel method url opts w)
    as (new & Hnew & _ & _ & Hfresh & Hshape & Hopts).
  destruct (sendRequest_try fuel method url opts w) as [opts' [v w'|e w'|w']];
    cbn in Hnew, Hopts; [by exists new | | by exists new].
  cbn zeta. destruct (2 <? S tries).
  - exists ([EvLog Err "Failed to find a responsive peer after 3 tries.";
             EvLog Err (message e)] ++ new).
    cbn. rewrite Hnew. repeat split; [done |]. by repeat constructor.
  - destruct (IH opts' (S tries)
                (mkWorld (clock w') (EvLog Err (message e) :: history w')))
      as (later & -> & Hlater & Hshape').
    exists (later ++ EvLog Err (message e) :: new). cbn. rewrite Hnew.
    split; [by rewrite <- app_assoc |].
    split; [by apply fresh_selection_app |].
    rewrite Hopts in Hshape'. apply Forall_app. split; [done |]. by constructor.
Qed.

Lemma failedAttempts_more_fuel n fuel fuel' method url opts w r :
  failedAttempts env options n fuel method url opts w = Some r -> fuel <= fuel' ->
  failedAttempts env options n fuel' method url opts w = Some r.
Proof.
  revert opts w. induction n as [|n IH]; intros opts w Hrun Hle; [done |].
  cbn in *.
  destruct (sendRequest_try fuel method url opts w) as [opts' [v w'|e w'|w']] eqn:Htry;
    try done.
  rewrite (sendRequest_try_more_fuel fuel fuel'), Htry; [by apply IH | | done].
  by rewrite Htry.
Qed.

(** [n] failed attempts add [n] error lines and at most [n] requests. *)
Lemma failedAttempts_history n fuel method url opts w opts' w' :
  failedAttempts env options n fuel method url opts w = Some (opts', w') ->
  count_events (is_log Err) (history w') = n + count_events (is_log Err) (history w) /\
  count_events is_got (history w') <= n + count_events is_got (history w).
Proof.
  revert opts w. induction n as [|n IH]; intros opts w Hrun.
  { injection Hrun as <- <-. split; lia. }
  cbn in Hrun.
  destruct (sendRequest_try_history fuel method url opts w)
    as (new & Hnew & Hall & Hgot & _).
  destruct (sendRequest_try fuel method url opts w) as [opts1 [v w1|e w1|w1]];
    try done.
  apply IH in Hrun as [Herr Hreq]. cbn in *.
  rewrite Hnew, count_events_app in Herr, Hreq.
  rewrite (count_events_none (is_log Err) try_event new) in Herr;
    [| done | by intros [| | | [] | |]].
  split; lia.
Qed.

End DispatchFacts.




(** C1.  If the first three [try] blocks of a [sendRequest] call all throw
    (whatever threw: peer selection, the HTTP client, [JSON.parse]), the
    call makes no fourth attempt: with fuel for the three attempts it
    returns [undefined], and does not throw.  Between the start and the
    return it logs four error lines, one after each failed attempt and
    the final one, and issues at most three requests. *)
Theorem sendRequest_gives_up_after_three (env : Env) (options : NetworkOptions)
    (fuel : nat) (method : HttpMethod) (url : string) (opts opts' : RequestOptions)
    (w w' : World) :
  failedAttempts env options 3 fuel method url opts w = Some (opts', w') ->
  forall fuel', 3 + fuel <= fuel' ->
    let final :=
      mkWorld (clock w')
        (EvLog Err "Failed to find a responsive peer after 3 tries." :: history w') in
    Network.sendRequest env options fuel' method url opts 0 w =
      Returned undefined final /\
    count_events (is_log Err) (history final) =
      4 + count_events (is_log Err) (history w) /\
    count_events is_got (history final) <= 3 + count_events is_got (history w).
Proof.
  intros Hfail fuel' Hle final.
  destruct (failedAttempts_history _ _ _ _ _ _ _ _ _ _ Hfail) as [Herr Hreq].
  split; [|subst final; cbn; split; lia].
  destruct fuel' as [|[|[|fuel']]]; try lia.
  apply (failedAttempts_more_fuel _ _ _ _ fuel') in Hfail; [|lia].
  cbn in Hfail.
  destruct (Network.sendRequest_try env options fuel' method url opts w)
    as [opts1 [v1 w1|e1 w1|w1]] eqn:Htry1; try done.
  destruct (Network.sendRequest_try env options fuel' method url opts1 _)
    as [opts2 [v2 w2|e2 w2|w2]] eqn:Htry2; try done.
  destruct (Network.sendRequest_try env options fuel' method url opts2 _)
    as [opts3 [v3 w3|e3 w3|w3]] eqn:Htry3; try done.
  injection Hfail as <- <-.
  rewrite sendRequest_unfold.
  rewrite (sendRequest_try_more_fuel _ _ fuel'), Htry1; [|by rewrite Htry1 | lia].
  cbn zeta. change (2 <? 1) with false. cbn match.
  rewrite sendRequest_unfold.
  rewrite (sendRequest_try_more_fuel _ _ fuel'), Htry2; [|by rewrite Htry2 | lia].
  cbn zeta. change (2 <? 2) with false. cbn match.
  rewrite sendRequest_unfold, Htry3. done.
Qed.

Lemma sendRequest_gives_up_after_three_witness :
  Network.sendRequest Demo.offline Demo.seed_options 4 GET "blockchain"
    Demo.blockchain_query 0 Demo.start =
    Returned undefined
      (mkWorld 3
         (EvLog Err "Failed to find a responsive peer after 3 tries."
          :: Demo.refused ++ Demo.refused ++ Demo.refused)) /\
  count_events (is_log Err)
    (EvLog Err "Failed to find a responsive peer after 3 tries."
     :: Demo.refused ++ Demo.refused ++ Demo.refused) = 4 + 0 /\
  count_events is_got
    (EvLog Err "Failed to find a responsive peer after 3 tries."
     :: Demo.refused ++ Demo.refused ++ Demo.refused) <= 3 + 0.
Proof.
  apply (sendRequest_gives_up_after_three Demo.offline Demo.seed_options 1 GET
           "blockchain" Demo.blockchain_query Demo.blockchain_query Demo.start
           (mkWorld 3 (Demo.refused ++ Demo.refused ++ Demo.refused))).
  - reflexivity.
  - lia.
Defined.

(** C2.  Every request that [sendRequest] issues, on the first attempt
    or on a retry, comes right after a peer selection of its own: with
    no seed peer, after a discovery call, a successful probe of the
    peer drawn from it and the announcement of the request to that very
    peer.  And there is a run with the candidates [P1] and [P2] in
    which [P1] passes the probe and refuses the request, and the retry
    selects [P2] and returns its answer. *)
Theorem sendRequest_reselects_peer :
  (forall env options fuel method url opts tries w,
     exists new,
       history (world_of (Network.sendRequest env options fuel method url opts tries w))
         = new ++ history w /\
       fresh_selection options url new) /\
  Network.sendGET Demo.failover Demo.discovery_options 3 "blockchain" None Demo.start =
    Returned Demo.payload_value (mkWorld 8 Demo.failover_history).
Proof.
  split; [|reflexivity].
  intros env options fuel method url opts tries w.
  destruct (sendRequest_history env options fuel method url opts tries w)
    as (new & Hnew & Hfresh & _).
  by exists new.
Qed.

(** * The milestone watcher *)

(** C7.  Once [getHeight] has returned [height], an iteration of
    [checkForAip11Enabled] hands the height to [setHeight], looks up the
    milestone and returns.  If the milestone has [aip11] it does nothing
    more; if not, it sets exactly one timer before returning, for
    itself, [blocktime * 1000] milliseconds ahead. *)
Theorem checkForAip11Enabled_reschedules (env : Env) (options : NetworkOptions)
    (fuel : nat) (w w1 : World) (height : JsValue) :
  Network.getHeight env options fuel w = Returned height w1 ->
  let milestone := getMilestone env height in
  Network.checkForAip11Enabled env options fuel w =
    Returned tt
      (mkWorld (clock w1)
         (if aip11 milestone then
            EvSetHeight height :: history w1
          else
            EvSetTimeout RunCheckForAip11Enabled (blocktime milestone * 1000)
            :: EvSetHeight height :: history w1)).
Proof.
  intros Hheight milestone. unfold Network.checkForAip11Enabled.
  run_first Hheight. fold milestone. run_monad.
  by destruct (aip11 milestone).
Qed.

Lemma checkForAip11Enabled_reschedules_witness :
  Network.checkForAip11Enabled Demo.healthy Demo.seed_options 2 Demo.start =
    Returned tt
      (mkWorld 1
         [EvSetTimeout RunCheckForAip11Enabled 8000;
          EvSetHeight (JNum 7);
          EvGot GET "http://10.0.0.1:4003/api/blockchain"
            (Network.gotOptions Demo.blockchain_query) (Resolved Demo.payload);
          EvLog Info (Network.sendingLine Demo.seed_options
                        "http://10.0.0.1:4003/api/blockchain")]).
Proof.
  apply (checkForAip11Enabled_reschedules Demo.healthy Demo.seed_options 2 Demo.start
           (mkWorld 1
              [EvGot GET "http://10.0.0.1:4003/api/blockchain"
                 (Network.gotOptions Demo.blockchain_query) (Resolved Demo.payload);
               EvLog Info (Network.sendingLine Demo.seed_options
                             "http://10.0.0.1:4003/api/blockchain")])
           (JNum 7)).
  reflexivity.
Defined.

(** C9.  When [sendGET] returns [undefined], as it does once the
    retries are exhausted, [getHeight] returns no height: reading
    [.data] of [undefined] throws.  The watcher iteration that asked for
    the height throws the same error, having neither written a height
    nor set a timer. *)
Theorem getHeight_throws_without_result (env : Env) (options : NetworkOptions)
    (fuel : nat) (w w1 : World) :
  Network.sendGET env options fuel "blockchain" None w = Returned undefined w1 ->
  Network.getHeight env options fuel w =
    Thrown (cannotRead "data" "undefined") w1 /\
  Network.checkForAip11Enabled env options fuel w =
    Thrown (cannotRead "data" "undefined") w1.
Proof.
  intros Hget.
  assert (Hheight : Network.getHeight env options fuel w =
            Thrown (cannotRead "data" "undefined") w1).
  { unfold Network.getHeight. by run_first Hget. }
  split; [done |].
  unfold Network.checkForAip11Enabled. by run_first Hheight.
Qed.

Lemma getHeight_throws_without_result_witness :
  Network.getHeight Demo.offline Demo.seed_options 4 Demo.start =
    Thrown (cannotRead "data" "undefined")
      (mkWorld 3
         (EvLog Err "Failed to find a responsive peer after 3 tries."
          :: Demo.refused ++ Demo.refused ++ Demo.refused)) /\
  Network.checkForAip11Enabled Demo.offline Demo.seed_options 4 Demo.start =
    Thrown (cannotRead "data" "undefined")
      (mkWorld 3
         (EvLog Err "Failed to find a responsive peer after 3 tries."
          :: Demo.refused ++ Demo.refused ++ Demo.refused)).
Proof.
  apply (getHeight_throws_without_result Demo.offline Demo.seed_options 4 Demo.start).
  reflexivity.
Defined.

(** * The wallet lookup *)

Lemma truthy_nonempty (s : string) : truthy s = true <-> s <> EmptyString.
Proof. by destruct s. Qed.

(** C10, as stated, fails: a user whose stored value is the empty
    string has an entry under the hash of the user id, and
    [getBIP38Wallet] returns [undefined] all the same. *)
Lemma getBIP38Wallet_blank_entry :
  ~ (Wallet.getBIP38Wallet Demo.toy_lib Demo.blank_store "alice" "secret"
       = Resolved None
     <-> Demo.blank_store !! sha256_hex Demo.toy_lib "alice" = None).
Proof.
  intros [Hnone _].
  assert (Hstored : Demo.blank_store !! sha256_hex Demo.toy_lib "alice"
                    = Some EmptyString) by apply lookup_singleton_eq.
  rewrite Hnone in Hstored; [done |].
  unfold Wallet.getBIP38Wallet. by rewrite Hstored.
Qed.

(** C10, amended.  [getBIP38Wallet] returns [undefined] exactly when the
    database has no entry under the hex sha256 of the user id or the
    entry is the empty string.  For any other entry it ends as
    [decryptWIF] ends on the entry, the user id and the password: with
    that wallet, or with that error.  [decryptWIF] asks [bip38.decrypt]
    for the entry under the key [bip38password + userId], fails if that
    fails, and otherwise builds the wallet from the decrypted key. *)
Theorem getBIP38Wallet_lookup (lib : CryptoLib) (database : gmap string string)
    (userId bip38password : string) :
  (Wallet.getBIP38Wallet lib database userId bip38password = Resolved None <->
   database !! sha256_hex lib userId = None \/
   database !! sha256_hex lib userId = Some EmptyString) /\
  (forall encryptedWif,
     database !! sha256_hex lib userId = Some encryptedWif ->
     encryptedWif <> EmptyString ->
     Wallet.getBIP38Wallet lib database userId bip38password =
       wallet ← Wallet.decryptWIF lib encryptedWif userId bip38password;
       mret (Some wallet)) /\
  (forall encryptedWif,
     match bip38_decrypt lib encryptedWif (bip38password +:+ userId) with
     | Rejected e =>
         Wallet.decryptWIF lib encryptedWif userId bip38password = Rejected e
     | Resolved decrypted =>
         Wallet.decryptWIF lib encryptedWif userId bip38password =
           encodedWIF ← wif_encode lib (network_wif lib) (privateKey decrypted)
                          (compressed decrypted);
           keys ← Keys_fromWIF lib encodedWIF;
           mret {| keys := keys; wif := encodedWIF |}
     end).
Proof.
  split; [|split].
  - unfold Wallet.getBIP38Wallet.
    destruct (database !! sha256_hex lib userId) as [[|c encryptedWif]|]; cbn.
    + split; [by right | done].
    + split; [|by intros [|]].
      by destruct (Wallet.decryptWIF lib _ userId bip38password).
    + split; [by left | done].
  - intros encryptedWif Hstored Hne. unfold Wallet.getBIP38Wallet.
    rewrite Hstored. apply truthy_nonempty in Hne. by rewrite Hne.
  - intros encryptedWif. unfold Wallet.decryptWIF.
    by destruct (bip38_decrypt lib encryptedWif _).
Qed.

Lemma getBIP38Wallet_lookup_witness :
  Wallet.getBIP38Wallet Demo.toy_lib Demo.store "alice" "secret" =
    Resolved (Some Demo.toy_wallet).
Proof.
  destruct (getBIP38Wallet_lookup Demo.toy_lib Demo.store "alice" "secret")
    as (_ & Hstored & _).
  rewrite (Hstored "6PYencrypted"); [reflexivity | apply lookup_singleton_eq | done].
Defined.

(** * Beyond the claims: the dispatcher as a whole *)

Lemma try_event_dispatch h :
  Forall (fun ev => try_event ev = true) h ->
  Forall (fun ev => dispatch_event ev = true) h.
Proof. intros Hall. eapply Forall_impl; [exact Hall |]. by intros []. Qed.

Lemma try_event_no_error h :
  Forall (fun ev => try_event ev = true) h -> count_events (is_log Err) h = 0.
Proof.
  intros Hall. apply (count_events_none (is_log Err) try_event); [done |].
  by intros [| | | [] | |].
Qed.

Lemma attempts_left_retry tries :
  (2 <? S tries) = false -> attempts_left tries = S (attempts_left (S tries)).
Proof. intros Hlt. apply Nat.ltb_ge in Hlt. unfold attempts_left. lia. Qed.

Lemma attempts_left_positive tries : 1 <= attempts_left tries.
Proof. unfold attempts_left. lia. Qed.

Section DispatchRuns.

Context (env : Env) (options : NetworkOptions).

(** A whole run of [sendRequest]: what it can leave behind, how much of
    it, and that it does not end in an exception. *)
Lemma sendRequest_run fuel method url opts tries w :
  exists new,
    history (world_of (Network.sendRequest env options fuel method url opts tries w))
      = new ++ history w /\
    Forall (fun ev => dispatch_event ev = true) new /\
    count_events is_got new <= attempts_left tries /\
    count_events (is_log Err) new <= S (attempts_left tries) /\
    (forall e w',
       Network.sendRequest env options fuel method url opts tries w <> Thrown e w').
Proof.
  revert opts tries w. induction fuel as [|fuel IH]; intros opts tries w.
  { exists []. cbn. repeat split; [done | lia | lia | done]. }
  rewrite sendRequest_unfold.
  destruct (sendRequest_try_history env options fuel method url opts w)
    as (new & Hnew & Hall & Hgot & _).
  assert (Hpos := attempts_left_positive tries).
  assert (Herr := try_event_no_error _ Hall).
  destruct (Network.sendRequest_try env options fuel method url opts w)
    as [opts' [v w'|e w'|w']]; cbn in Hnew.
  1,3: exists new; split; [done |]; split; [by apply try_event_dispatch |];
    split; [lia |]; split; [lia | done].
  cbn zeta. destruct (2 <? S tries) eqn:Hlast.
  - exists ([EvLog Err "Failed to find a responsive peer after 3 tries.";
             EvLog Err (message e)] ++ new).
    cbn. rewrite Hnew. split; [done |].
    split; [repeat constructor; by apply try_event_dispatch |].
    split; [lia |]. split; [lia | done].
  - destruct (IH opts' (S tries)
                (mkWorld (clock w') (EvLog Err (message e) :: history w')))
      as (later & Hlater & Hall' & Hgot' & Herr' & Hsafe).
    exists (later ++ EvLog Err (message e) :: new).
    rewrite Hlater. cbn. rewrite Hnew, <- app_assoc.
    rewrite (attempts_left_retry tries Hlast).
    split; [done |].
    split; [apply Forall_app; split; [done |]; constructor;
            [done | by apply try_event_dispatch] |].
    rewrite !count_events_app. cbn. rewrite Herr.
    split; [lia |]. split; [lia |].
    rewrite <- Hnew. apply Hsafe.
Qed.

End DispatchRuns.

(** X1.  [sendRequest] never ends in an exception: whatever the
    collaborators answer or throw, the [catch] block turns it into a
    retry or into [undefined], so a run either returns or is still
    running.  The same holds for [sendGET] and [sendPOST]. *)
Theorem sendRequest_never_throws (env : Env) (options : NetworkOptions)
    (fuel : nat) (w : World) :
  (forall method url opts tries,
     exists w',
       (exists v, Network.sendRequest env options fuel method url opts tries w
                  = Returned v w') \/
       Network.sendRequest env options fuel method url opts tries w = OutOfFuel w') /\
  (forall path query,
     exists w',
       (exists v, Network.sendGET env options fuel path query w = Returned v w') \/
       Network.sendGET env options fuel path query w = OutOfFuel w') /\
  (forall path body,
     exists w',
       (exists v, Network.sendPOST env options fuel path body w = Returned v w') \/
       Network.sendPOST env options fuel path body w = OutOfFuel w').
Proof.
  assert (Hsafe : forall method url opts tries,
    exists w',
      (exists v, Network.sendRequest env options fuel method url opts tries w
                 = Returned v w') \/
      Network.sendRequest env options fuel method url opts tries w = OutOfFuel w').
  { intros method url opts tries.
    destruct (sendRequest_run env options fuel method url opts tries w)
      as (_ & _ & _ & _ & _ & Hsafe).
    destruct (Network.sendRequest env options fuel method url opts tries w)
      as [v w'|e w'|w'].
    - exists w'. left. by exists v.
    - by destruct (Hsafe e w').
    - exists w'. by right. }
  split; [done |]. split; intros; apply Hsafe.
Qed.

(** X2.  A [sendRequest] call entered with [tries] issues at most
    [max 1 (3 - tries)] requests and logs at most one error line more
    than that; from [tries = 0], at most three requests and four error
    lines.  It writes no height and sets no timer. *)
Theorem sendRequest_bounded_retries (env : Env) (options : NetworkOptions)
    (fuel : nat) (method : HttpMethod) (url : string) (opts : RequestOptions)
    (tries : nat) (w : World) :
  exists new,
    history (world_of (Network.sendRequest env options fuel method url opts tries w))
      = new ++ history w /\
    count_events is_got new <= Nat.max 1 (3 - tries) /\
    count_events (is_log Err) new <= S (Nat.max 1 (3 - tries)) /\
    count_events is_set_height new = 0 /\
    count_events is_timer new = 0.
Proof.
  destruct (sendRequest_run env options fuel method url opts tries w)
    as (new & Hnew & Hall & Hgot & Herr & _).
  exists new. repeat split; try done.
  - apply (count_events_none is_set_height dispatch_event); [done | by intros []].
  - apply (count_events_none is_timer dispatch_event); [done | by intros []].
Qed.

(** X3.  What [sendRequest] returns is either [JSON.parse] of the body
    of the response it received last, that response being the newest
    event, or [undefined] right after the line "Failed to find a
    responsive peer after 3 tries." and the error line of the last
    attempt. *)
Theorem sendRequest_result_origin (env : Env) (options : NetworkOptions)
    (fuel : nat) (method : HttpMethod) (url : string) (opts : RequestOptions)
    (tries : nat) (w w' : World) (v : JsValue) :
  Network.sendRequest env options fuel method url opts tries w = Returned v w' ->
  (exists m uri g text rest,
     history w' = EvGot m uri g (Resolved text) :: rest /\
     JSON_parse env text = Resolved v) \/
  (v = undefined /\
   exists line rest,
     history w' = EvLog Err "Failed to find a responsive peer after 3 tries."
                  :: EvLog Err line :: rest).
Proof.
  revert opts tries w. induction fuel as [|fuel IH]; intros opts tries w; [done |].
  rewrite sendRequest_unfold.
  destruct (Network.getPeer env options fuel w) as [p w1|e w1|w1] eqn:Hsel.
  - rewrite (sendRequest_try_selected _ _ _ _ _ _ _ _ _ Hsel). cbn zeta.
    destruct (got env (clock w1) method _ _) as [text|e].
    + destruct (JSON_parse env text) as [v0|e] eqn:Hparse.
      * intros [= <- <-]. left. by repeat eexists.
      * destruct (2 <? S tries); [|by apply IH].
        intros [= <- <-]. right. by repeat eexists.
    + destruct (2 <? S tries); [|by apply IH].
      intros [= <- <-]. right. by repeat eexists.
  - unfold Network.sendRequest_try. rewrite Hsel. cbn zeta.
    destruct (2 <? S tries); [|by apply IH].
    intros [= <- <-]. right. by repeat eexists.
  - unfold Network.sendRequest_try. by rewrite Hsel.
Qed.

Lemma sendRequest_result_origin_witness :
  (exists m uri g text rest,
     Demo.failover_history = EvGot m uri g (Resolved text) :: rest /\
     JSON_parse Demo.failover text = Resolved Demo.payload_value) \/
  (Demo.payload_value = undefined /\
   exists line rest,
     Demo.failover_history =
       EvLog Err "Failed to find a responsive peer after 3 tries."
       :: EvLog Err line :: rest).
Proof.
  apply (sendRequest_result_origin Demo.failover Demo.discovery_options 3 GET
           "blockchain" Demo.blockchain_query 0 Demo.start
           (mkWorld 8 Demo.failover_history) Demo.payload_value).
  reflexivity.
Defined.

(** If peer selection returns [p], the request to [p] is answered
    and the answer parses to [v], then [sendRequest] returns [v] after
    that one request and logs no error, whatever [tries] it was entered
    with. *)
Lemma sendRequest_first_answer (env : Env) (options : NetworkOptions)
    (fuel : nat) (method : HttpMethod) (url : string) (opts : RequestOptions)
    (tries : nat) (w w1 : World) (p : IPeer) (text : string) (v : JsValue) :
  Network.getPeer env options fuel w = Returned p w1 ->
  got env (clock w1) method (Network.requestUri p url)
    (Network.gotOptions (Network.stringifyBody env opts)) = Resolved text ->
  JSON_parse env text = Resolved v ->
  Network.sendRequest env options (S fuel) method url opts tries w =
    Returned v
      (mkWorld (S (clock w1))
         (EvGot method (Network.requestUri p url)
            (Network.gotOptions (Network.stringifyBody env opts)) (Resolved text)
          :: EvLog Info (Network.sendingLine options (Network.requestUri p url))
          :: history w1)).
Proof.
  intros Hsel Hgot Hparse.
  rewrite sendRequest_unfold, (sendRequest_try_selected _ _ _ _ _ _ _ _ _ Hsel).
  cbn zeta. by rewrite Hgot, Hparse.
Qed.

(** X4.  With a seed peer a dispatch cannot hang: given fuel for its
    attempts, [sendRequest] returns.  On the way it consults nothing
    but the HTTP client, once per attempt, and never calls discovery,
    probes a peer or logs a warning. *)
Theorem sendRequest_seed_returns (env : Env) (options : NetworkOptions)
    (fuel : nat) (method : HttpMethod) (url : string) (opts : RequestOptions)
    (tries : nat) (w : World) :
  truthy (peer options) = true ->
  Nat.max 1 (3 - tries) < fuel ->
  exists v w' new,
    Network.sendRequest env options fuel method url opts tries w = Returned v w' /\
    history w' = new ++ history w /\
    clock w' = count_events is_got new + clock w /\
    1 <= count_events is_got new <= Nat.max 1 (3 - tries) /\
    Forall (fun ev => selection_event ev = false) new.
Proof.
  intros Hseed. change (Nat.max 1 (3 - tries)) with (attempts_left tries).
  revert opts tries w. induction fuel as [|fuel IH]; intros opts tries w Hfuel; [lia |].
  assert (Hpos := attempts_left_positive tries).
  destruct fuel as [|fuel]; [lia |].
  rewrite sendRequest_unfold.
  rewrite (sendRequest_try_selected _ _ _ _ _ _ _ _ _
             (getPeer_seeded env options fuel w Hseed)).
  cbn zeta.
  set (uri := Network.requestUri _ url).
  set (gopts := Network.gotOptions _).
  set (answer := got env (clock w) method uri gopts).
  assert (Hcatch : forall e,
    exists v w' new,
      (if 2 <? S tries
       then Returned undefined
              (mkWorld (S (clock w))
                 (EvLog Err "Failed to find a responsive peer after 3 tries."
                  :: EvLog Err (message e) :: EvGot method uri gopts answer
                  :: EvLog Info (Network.sendingLine options uri) :: history w))
       else Network.sendRequest env options (S fuel) method url
              (Network.stringifyBody env opts) (S tries)
              (mkWorld (S (clock w))
                 (EvLog Err (message e) :: EvGot method uri gopts answer
                  :: EvLog Info (Network.sendingLine options uri) :: history w)))
        = Returned v w' /\
      history w' = new ++ history w /\
      clock w' = count_events is_got new + clock w /\
      1 <= count_events is_got new <= attempts_left tries /\
      Forall (fun ev => selection_event ev = false) new).
  { intros e. destruct (2 <? S tries) eqn:Hlast.
    - eexists _, _,
        [EvLog Err "Failed to find a responsive peer after 3 tries.";
         EvLog Err (message e); EvGot method uri gopts answer;
         EvLog Info (Network.sendingLine options uri)].
      split; [done |]. cbn.
      split; [done |]. split; [lia |]. split; [lia |]. by repeat constructor.
    - rewrite (attempts_left_retry tries Hlast) in *.
      destruct (IH (Network.stringifyBody env opts) (S tries)
                  (mkWorld (S (clock w))
                     (EvLog Err (message e) :: EvGot method uri gopts answer
                      :: EvLog Info (Network.sendingLine options uri) :: history w)))
        as (v & w' & new & Hrun & Hnew & Hclock & Hgot & Hquiet); [lia |].
      exists v, w',
        (new ++ [EvLog Err (message e); EvGot method uri gopts answer;
                 EvLog Info (Network.sendingLine options uri)]).
      split; [done |]. cbn in Hnew, Hclock.
      split; [by rewrite <- app_assoc |].
      rewrite count_events_app. cbn.
      split; [lia |]. split; [lia |].
      apply Forall_app. split; [done |]. by repeat constructor. }
  destruct answer as [text|e] eqn:Hanswer; [|apply Hcatch].
  destruct (JSON_parse env text) as [v|e]; [|apply Hcatch].
  eexists v, _,
    [EvGot method uri gopts (Resolved text);
     EvLog Info (Network.sendingLine options uri)].
  split; [done |]. cbn.
  split; [done |]. split; [lia |]. split; [lia |]. by repeat constructor.
Qed.

Lemma sendRequest_seed_returns_witness :
  exists v w' new,
    Network.sendRequest Demo.offline Demo.seed_options 4 GET "blockchain"
      Demo.blockchain_query 0 Demo.start = Returned v w' /\
    history w' = new ++ history Demo.start /\
    clock w' = count_events is_got new + 0 /\
    1 <= count_events is_got new <= 3 /\
    Forall (fun ev => selection_event ev = false) new.
Proof.
  apply (sendRequest_seed_returns Demo.offline Demo.seed_options 4 GET "blockchain"
           Demo.blockchain_query 0 Demo.start); [reflexivity | cbn; lia].
Defined.

Section Starvation.

Context (env : Env) (options : NetworkOptions).

(** Discovery keeps advertising peers, none of which ever answers the
    probe: peer selection is still running when the fuel is spent. *)
Lemma getPeer_starved fuel w :
  truthy (peer options) = false ->
  (forall t, clock w <= t ->
     exists peers,
       findPeersWithPlugin env t "core-api" = Resolved peers /\
       peers <> [] /\
       forall p t', p ∈ peers -> isReachable env t' (Network.address p) = false) ->
  exists w', Network.getPeer env options fuel w = OutOfFuel w'.
Proof.
  intros Hseed. revert w. induction fuel as [|fuel IH]; intros w Hdown.
  { by exists w. }
  rewrite getPeer_unfold by done. cbn zeta.
  destruct (Hdown (clock w)) as (peers & -> & Hne & Hunreach); [lia |].
  destruct peers as [|q peers']; [done |]. set (peers := q :: peers') in *.
  destruct (lookup_lt_is_Some_2 peers
              (random env (S (clock w)) `mod` length peers)) as [p Hp].
  { by apply Nat.mod_upper_bound. }
  rewrite Hp, (Hunreach p); [|apply list_elem_of_lookup; eauto].
  apply IH. intros t Ht. apply Hdown. cbn in Ht. lia.
Qed.

End Starvation.

(** X5.  The three-tries limit does not bound the wait for a peer.
    Without a seed peer, if discovery keeps advertising peers and none
    of them ever answers the probe, a dispatch is still inside its
    first peer selection however long it runs: [sendRequest] neither
    returns nor gives up, issues no request and logs no error, and
    [getHeight] and the watcher iteration hang with it. *)
Theorem sendRequest_waits_for_a_peer (env : Env) (options : NetworkOptions)
    (fuel : nat) (method : HttpMethod) (url : string) (opts : RequestOptions)
    (tries : nat) (w : World) :
  truthy (peer options) = false ->
  (forall t, clock w <= t ->
     exists peers,
       findPeersWithPlugin env t "core-api" = Resolved peers /\
       peers <> [] /\
       forall p t', p ∈ peers -> isReachable env t' (Network.address p) = false) ->
  (exists w',
     Network.sendRequest env options fuel method url opts tries w = OutOfFuel w' /\
     count_events is_got (history w') = count_events is_got (history w) /\
     count_events (is_log Err) (history w') = count_events (is_log Err) (history w)) /\
  (exists w', Network.getHeight env options fuel w = OutOfFuel w') /\
  (exists w', Network.checkForAip11Enabled env options fuel w = OutOfFuel w').
Proof.
  intros Hseed Hdown.
  assert (Hhang : forall method url opts tries,
    exists w',
      Network.sendRequest env options fuel method url opts tries w = OutOfFuel w' /\
      count_events is_got (history w') = count_events is_got (history w) /\
      count_events (is_log Err) (history w') =
        count_events (is_log Err) (history w)).
  { clear method url opts tries. intros method url opts tries.
    destruct fuel as [|fuel']; [by exists w |].
    destruct (getPeer_starved env options fuel' w Hseed Hdown) as [w' Hrun].
    destruct (getPeer_history env options fuel' w) as (new & Hnew & Hall & _).
    rewrite Hrun in Hnew. cbn in Hnew.
    exists w'. rewrite sendRequest_unfold. unfold Network.sendRequest_try.
    rewrite Hrun. split; [done |]. rewrite Hnew, !count_events_app.
    rewrite (count_events_none is_got selection_event new),
      (count_events_none (is_log Err) selection_event new);
      [done | done | by intros [| | | [] | |] | done | by intros []]. }
  split; [apply Hhang |].
  destruct (Hhang GET "blockchain" {| query := Some (JObj []); body := None |} 0)
    as (w' & Hrun & _).
  assert (Hget : Network.sendGET env options fuel "blockchain" None w
                 = OutOfFuel w') by exact Hrun.
  assert (Hheight : Network.getHeight env options fuel w = OutOfFuel w').
  { unfold Network.getHeight. by run_first Hget. }
  split; exists w'; [done |].
  unfold Network.checkForAip11Enabled. by run_first Hheight.
Qed.

Lemma sendRequest_waits_for_a_peer_witness :
  (exists w',
     Network.sendRequest Demo.lonely Demo.discovery_options 6 GET "blockchain"
       Demo.blockchain_query 0 Demo.start = OutOfFuel w' /\
     count_events is_got (history w') = 0 /\
     count_events (is_log Err) (history w') = 0) /\
  (exists w', Network.getHeight Demo.lonely Demo.discovery_options 6 Demo.start
              = OutOfFuel w') /\
  (exists w', Network.checkForAip11Enabled Demo.lonely Demo.discovery_options 6
                Demo.start = OutOfFuel w').
Proof.
  apply (sendRequest_waits_for_a_peer Demo.lonely Demo.discovery_options 6 GET
           "blockchain" Demo.blockchain_query 0 Demo.start).
  - reflexivity.
  - intros t _. exists [Demo.P1]. split; [reflexivity |]. split; [done |].
    intros p t' _. reflexivity.
Defined.

(** X6.  Let [value] be what was given, or [{}] if nothing or
    [undefined] was given.  Every request [sendGET] issues is a GET
    without a body whose query is [value].  Every request [sendPOST]
    issues is a POST without a query whose body is the JSON text of
    [value] if [value] is truthy and not a string (as every object is),
    and [value] itself otherwise.  Both send the two fixed headers and
    the 3000 ms timeout, on retries as on the first attempt. *)
Theorem sendGET_sendPOST_requests (env : Env) (options : NetworkOptions)
    (fuel : nat) (path : string) (given : option JsValue) (w : World) :
  let fixed := [("Accept", "application/vnd.core-api.v2+json");
                ("Content-Type", "application/json")] in
  let value :=
    match given with
    | None | Some undefined => JObj []
    | Some v => v
    end in
  (exists new,
     history (world_of (Network.sendGET env options fuel path given w))
       = new ++ history w /\
     forall m uri g answer,
       EvGot m uri g answer ∈ new ->
       m = GET /\
       g = {| got_query := Some value; got_body := None;
              headers := fixed; timeout := 3000 |}) /\
  (exists new,
     history (world_of (Network.sendPOST env options fuel path given w))
       = new ++ history w /\
     forall m uri g answer,
       EvGot m uri g answer ∈ new ->
       m = POST /\
       g = {| got_query := None;
              got_body :=
                Some (if truthy_value value && negb (is_string value)
                      then BodyString (JSON_stringify env value)
                      else BodyObject value);
              headers := fixed; timeout := 3000 |}).
Proof.
  intros fixed value. split.
  - destruct (sendRequest_history env options fuel GET path
                {| query := Some value; body := None |} 0 w)
      as (new & Hnew & _ & Hshape).
    exists new. split; [done |]. intros m uri g answer Hin.
    rewrite Forall_forall in Hshape. by destruct (Hshape _ Hin) as (-> & -> & _).
  - destruct (sendRequest_history env options fuel POST path
                {| query := None; body := Some (BodyObject value) |} 0 w)
      as (new & Hnew & _ & Hshape).
    exists new. split; [done |]. intros m uri g answer Hin.
    rewrite Forall_forall in Hshape. destruct (Hshape _ Hin) as (-> & -> & _).
    split; [done |]. unfold Network.gotOptions, Network.stringifyBody. cbn.
    by destruct (truthy_value value && negb (is_string value)).
Qed.

Lemma sendGET_sendPOST_requests_witness :
  exists new,
    history (world_of (Network.sendPOST Demo.offline Demo.seed_options 4
                         "transactions" None Demo.start)) = new ++ [] /\
    forall m uri g answer,
      EvGot m uri g answer ∈ new ->
      m = POST /\
      g = {| got_query := None;
             got_body := Some (BodyString "{}");
             headers := [("Accept", "application/vnd.core-api.v2+json");
                         ("Content-Type", "application/json")];
             timeout := 3000 |}.
Proof.
  destruct (sendGET_sendPOST_requests Demo.offline Demo.seed_options 4
              "transactions" None Demo.start) as [_ Hpost].
  exact Hpost.
Defined.

(** What the guard and the defaults do with bodies and queries that are
    not plain objects. *)
Example sendPOST_null_body :
  Network.sendPOST Demo.healthy Demo.seed_options 2 "transactions" (Some JNull)
    Demo.start =
    Returned Demo.payload_value
      (mkWorld 1
         [EvGot POST "http://10.0.0.1:4003/api/transactions"
            {| got_query := None;
               got_body := Some (BodyObject JNull);
               headers := [("Accept", "application/vnd.core-api.v2+json");
                           ("Content-Type", "application/json")];
               timeout := 3000 |}
            (Resolved Demo.payload);
          EvLog Info (Network.sendingLine Demo.seed_options
                        "http://10.0.0.1:4003/api/transactions")]).
Proof. reflexivity. Qed.

Example sendPOST_string_body :
  Network.sendPOST Demo.healthy Demo.seed_options 2 "transactions"
    (Some (JStr "raw")) Demo.start =
    Returned Demo.payload_value
      (mkWorld 1
         [EvGot POST "http://10.0.0.1:4003/api/transactions"
            {| got_query := None;
               got_body := Some (BodyObject (JStr "raw"));
               headers := [("Accept", "application/vnd.core-api.v2+json");
                           ("Content-Type", "application/json")];
               timeout := 3000 |}
            (Resolved Demo.payload);
          EvLog Info (Network.sendingLine Demo.seed_options
                        "http://10.0.0.1:4003/api/transactions")]).
Proof. reflexivity. Qed.

Example sendPOST_undefined_body :
  Network.sendPOST Demo.healthy Demo.seed_options 2 "transactions" (Some undefined)
    Demo.start =
    Network.sendPOST Demo.healthy Demo.seed_options 2 "transactions" None Demo.start.
Proof. reflexivity. Qed.

Example sendGET_undefined_query :
  Network.sendGET Demo.healthy Demo.seed_options 2 "blockchain" (Some undefined)
    Demo.start =
    Returned Demo.payload_value
      (mkWorld 1
         [EvGot GET "http://10.0.0.1:4003/api/blockchain"
            (Network.gotOptions Demo.blockchain_query) (Resolved Demo.payload);
          EvLog Info (Network.sendingLine Demo.seed_options
                        "http://10.0.0.1:4003/api/blockchain")]).
Proof. reflexivity. Qed.

(** * Beyond the claims: peer selection *)

(** X7.  [getPeer] throws in two cases only, both without a seed peer
    and both right after a discovery call: discovery itself failed, and
    [getPeer] throws that very error; or discovery answered with the
    empty list, and [getPeer] throws the TypeError of reading [ip] of
    [undefined].  A non-empty list never makes it throw. *)
Theorem getPeer_throws_only_after_discovery (env : Env) (options : NetworkOptions)
    (fuel : nat) (w w' : World) (e : Error) :
  Network.getPeer env options fuel w = Thrown e w' ->
  truthy (peer options) = false /\
  exists rest,
    history w' = EvFindPeers "core-api" (Rejected e) :: rest \/
    (e = cannotRead "ip" "undefined" /\
     history w' = EvFindPeers "core-api" (Resolved []) :: rest).
Proof.
  destruct (truthy (peer options)) eqn:Hseed.
  { destruct fuel as [|fuel]; [done |]. by rewrite getPeer_seeded. }
  intros Hrun. split; [done |].
  revert w Hrun. induction fuel as [|fuel IH]; intros w Hrun; [done |].
  rewrite getPeer_unfold in Hrun by done. cbn zeta in Hrun.
  destruct (findPeersWithPlugin env (clock w) "core-api") as [[|q peers']|e0].
  - injection Hrun as <- <-. eexists. by right.
  - set (peers := q :: peers') in *.
    destruct (lookup_lt_is_Some_2 peers
                (random env (S (clock w)) `mod` length peers)) as [p Hp].
    { by apply Nat.mod_upper_bound. }
    rewrite Hp in Hrun.
    destruct (isReachable env _ _); [done |]. by apply IH in Hrun.
  - injection Hrun as <- <-. eexists. by left.
Qed.

Lemma getPeer_throws_only_after_discovery_witness :
  truthy (peer Demo.discovery_options) = false /\
  exists rest,
    [EvFindPeers "core-api" (Rejected (mkError "getaddrinfo ENOTFOUND"))]
      = EvFindPeers "core-api" (Rejected (mkError "getaddrinfo ENOTFOUND")) :: rest \/
    (mkError "getaddrinfo ENOTFOUND" = cannotRead "ip" "undefined" /\
     [EvFindPeers "core-api" (Rejected (mkError "getaddrinfo ENOTFOUND"))]
       = EvFindPeers "core-api" (Resolved []) :: rest).
Proof.
  apply (getPeer_throws_only_after_discovery Cases.undiscoverable
           Demo.discovery_options 3 Demo.start
           (mkWorld 1 [EvFindPeers "core-api"
                         (Rejected (mkError "getaddrinfo ENOTFOUND"))])
           (mkError "getaddrinfo ENOTFOUND")).
  reflexivity.
Defined.

(** X8.  Without a seed peer, a [getPeer] that returns after rejecting
    [k] peers has called discovery [k + 1] times, once before every
    probe, has probed [k + 1] times and has logged [k] warnings: no
    discovery answer is reused for a second draw. *)
Theorem getPeer_rounds (env : Env) (options : NetworkOptions)
    (fuel : nat) (w w' : World) (p : IPeer) :
  truthy (peer options) = false ->
  Network.getPeer env options fuel w = Returned p w' ->
  exists k,
    k < fuel /\
    clock w' = 3 * S k + clock w /\
    count_events is_find_peers (history w') =
      S k + count_events is_find_peers (history w) /\
    count_events is_probe (history w') = S k + count_events is_probe (history w) /\
    count_events (is_log Warn) (history w') =
      k + count_events (is_log Warn) (history w).
Proof.
  intros Hseed. revert w. induction fuel as [|fuel IH]; intros w Hrun; [done |].
  rewrite getPeer_unfold in Hrun by done. cbn zeta in Hrun.
  destruct (findPeersWithPlugin env (clock w) "core-api") as [[|q peers]|e];
    [done | | done].
  destruct (_ !! _) as [c|]; [|done].
  destruct (isReachable env _ _).
  - injection Hrun as <- <-. exists 0. cbn. repeat split; lia.
  - apply IH in Hrun as (k & Hk & Hclock & Hfind & Hprobe & Hwarn).
    exists (S k). cbn in *. repeat split; lia.
Qed.

Lemma getPeer_rounds_witness :
  exists k,
    k < 5 /\
    clock (world_of (Network.getPeer Cases.patchy Demo.discovery_options 5 Demo.start))
      = 3 * S k + 0 /\
    count_events is_find_peers
      (history (world_of
         (Network.getPeer Cases.patchy Demo.discovery_options 5 Demo.start)))
      = S k + 0 /\
    count_events is_probe
      (history (world_of
         (Network.getPeer Cases.patchy Demo.discovery_options 5 Demo.start)))
      = S k + 0 /\
    count_events (is_log Warn)
      (history (world_of
         (Network.getPeer Cases.patchy Demo.discovery_options 5 Demo.start)))
      = k + 0.
Proof.
  apply (getPeer_rounds Cases.patchy Demo.discovery_options 5 Demo.start
           (world_of (Network.getPeer Cases.patchy Demo.discovery_options 5
                        Demo.start))
           Demo.P2); reflexivity.
Defined.

(** X9.  Without a seed peer, the peer [getPeer] returns was advertised
    by the discovery call made immediately before its probe, the latest
    one: a peer is never taken from an earlier, possibly stale list. *)
Theorem getPeer_returns_advertised_peer (env : Env) (options : NetworkOptions)
    (fuel : nat) (w w' : World) (p : IPeer) :
  truthy (peer options) = false ->
  Network.getPeer env options fuel w = Returned p w' ->
  exists t peers rest,
    findPeersWithPlugin env t "core-api" = Resolved peers /\
    clock w' = 3 + t /\
    p ∈ peers /\
    history w' = EvIsReachable (Network.address p) true
                 :: EvFindPeers "core-api" (Resolved peers) :: rest.
Proof.
  intros Hseed. revert w. induction fuel as [|fuel IH]; intros w Hrun; [done |].
  rewrite getPeer_unfold in Hrun by done. cbn zeta in Hrun.
  destruct (findPeersWithPlugin env (clock w) "core-api") as [[|q peers']|e] eqn:Hfind;
    [done | | done].
  set (peers := q :: peers') in *.
  destruct (peers !! _) as [c|] eqn:Hdraw; [|done].
  destruct (isReachable env _ _); [|by apply IH in Hrun].
  injection Hrun as <- <-. exists (clock w), peers. eexists.
  repeat split; [done |]. destruct c. apply list_elem_of_lookup. eauto.
Qed.

Lemma getPeer_returns_advertised_peer_witness :
  exists t peers rest,
    findPeersWithPlugin Cases.patchy t "core-api" = Resolved peers /\
    9 = 3 + t /\
    Demo.P2 ∈ peers /\
    history (world_of (Network.getPeer Cases.patchy Demo.discovery_options 5
                         Demo.start))
      = EvIsReachable "10.0.0.2:4003" true
        :: EvFindPeers "core-api" (Resolved peers) :: rest.
Proof.
  apply (getPeer_returns_advertised_peer Cases.patchy Demo.discovery_options 5
           Demo.start
           (world_of (Network.getPeer Cases.patchy Demo.discovery_options 5
                        Demo.start))
           Demo.P2); reflexivity.
Defined.

(** * Beyond the claims: the milestone watcher *)

Section WatcherFacts.

Context (env : Env) (options : NetworkOptions).

(** [getHeight] on the response [v]: the property reads change nothing
    in the world. *)
Lemma getHeight_of_response fuel w v w1 :
  Network.sendGET env options fuel "blockchain" None w = Returned v w1 ->
  Network.getHeight env options fuel w =
    (data ← await (getProp v "data");
     block ← await (getProp data "block");
     await (getProp block "height")) w1.
Proof. intros Hget. unfold Network.getHeight. by run_first Hget. Qed.

Lemma getHeight_world fuel w :
  world_of (Network.getHeight env options fuel w) =
    world_of (Network.sendGET env options fuel "blockchain" None w).
Proof.
  destruct (Network.sendGET env options fuel "blockchain" None w)
    as [v w1|e w1|w1] eqn:Hget.
  - rewrite (getHeight_of_response _ _ _ _ Hget).
    unfold mbind, M_bind, await, mret, M_ret, throw.
    destruct (getProp v "data") as [data|]; [|done].
    destruct (getProp data "block") as [block|]; [|done].
    by destruct (getProp block "height").
  - unfold Network.getHeight. by run_first Hget.
  - unfold Network.getHeight. by run_first Hget.
Qed.

(** One iteration of the watcher, whatever its outcome: the events of the
    height query, then, only if the height was obtained, the write of
    the height and, unless the milestone has [aip11], the timer. *)
Lemma checkForAip11Enabled_run fuel w :
  exists query_events,
    Forall (fun ev => dispatch_event ev = true) query_events /\
    match Network.checkForAip11Enabled env options fuel w with
    | Returned _ w' =>
        exists height,
          history w' =
            (if aip11 (getMilestone env height) then [EvSetHeight height]
             else [EvSetTimeout RunCheckForAip11Enabled
                     (blocktime (getMilestone env height) * 1000);
                   EvSetHeight height])
            ++ query_events ++ history w
    | Thrown _ w' | OutOfFuel w' => history w' = query_events ++ history w
    end.
Proof.
  destruct (sendRequest_run env options fuel GET "blockchain"
              {| query := Some (JObj []); body := None |} 0 w)
    as (new & Hnew & Hall & _).
  change (Network.sendRequest env options fuel GET "blockchain"
            {| query := Some (JObj []); body := None |} 0 w)
    with (Network.sendGET env options fuel "blockchain" None w) in Hnew.
  rewrite <- getHeight_world in Hnew.
  exists new. split; [done |].
  unfold Network.checkForAip11Enabled.
  destruct (Network.getHeight env options fuel w) as [height w1|e w1|w1] eqn:Hheight;
    cbn in Hnew; run_first Hheight; [|done..].
  run_monad. destruct (aip11 (getMilestone env height)) eqn:Hactive; cbn;
    exists height; by rewrite Hactive, Hnew.
Qed.

End WatcherFacts.

(** X10.  [getHeight] is [data.block.height] of the response, unchecked.
    It throws exactly when the response, its [data] or its [block] is
    [undefined] or [null] (a missing or non-object part reads as
    [undefined]); otherwise it returns whatever [height] holds, which is
    [undefined] when the block has none.  It changes nothing in the world
    after the query. *)
Theorem getHeight_reads_response (env : Env) (options : NetworkOptions)
    (fuel : nat) (w w1 : World) (v : JsValue) :
  Network.sendGET env options fuel "blockchain" None w = Returned v w1 ->
  let data := field v "data" in
  let block := field data "block" in
  if nullish v || nullish data || nullish block then
    exists e, Network.getHeight env options fuel w = Thrown e w1
  else
    Network.getHeight env options fuel w = Returned (field block "height") w1.
Proof.
  intros Hget data block. rewrite (getHeight_of_response _ _ _ _ _ _ Hget).
  subst data block. unfold field, mbind, M_bind, await, mret, M_ret, throw.
  destruct v as [| | | | | |fields]; cbn; eauto.
  destruct (assoc "data" fields) as [| | | | | |dfields]; cbn; eauto.
  destruct (assoc "block" dfields) as [| | | | | |bfields]; cbn; eauto.
Qed.

Lemma getHeight_reads_response_witness :
  Network.getHeight Cases.headless Demo.seed_options 2 Demo.start =
    Returned undefined
      (mkWorld 1
         [EvGot GET "http://10.0.0.1:4003/api/blockchain"
            (Network.gotOptions Demo.blockchain_query) (Resolved "headless");
          EvLog Info (Network.sendingLine Demo.seed_options
                        "http://10.0.0.1:4003/api/blockchain")]).
Proof.
  apply (getHeight_reads_response Cases.headless Demo.seed_options 2 Demo.start
           (mkWorld 1
              [EvGot GET "http://10.0.0.1:4003/api/blockchain"
                 (Network.gotOptions Demo.blockchain_query) (Resolved "headless");
               EvLog Info (Network.sendingLine Demo.seed_options
                             "http://10.0.0.1:4003/api/blockchain")])
           Cases.headless_value).
  reflexivity.
Defined.

(** X11.  An iteration of [checkForAip11Enabled] that returns has written
    the height exactly once and set at most one timer.  An iteration
    that throws (the height query gave [undefined], or a response
    without [data.block]) has written no height and set no timer: the
    watcher is not rescheduled and polls no more. *)
Theorem checkForAip11Enabled_footprint (env : Env) (options : NetworkOptions)
    (fuel : nat) (w : World) :
  exists new,
    history (world_of (Network.checkForAip11Enabled env options fuel w))
      = new ++ history w /\
    match Network.checkForAip11Enabled env options fuel w with
    | Returned _ _ =>
        count_events is_set_height new = 1 /\ count_events is_timer new <= 1
    | _ => count_events is_set_height new = 0 /\ count_events is_timer new = 0
    end.
Proof.
  destruct (checkForAip11Enabled_run env options fuel w) as (new & Hall & Hrun).
  assert (Hheight : count_events is_set_height new = 0).
  { apply (count_events_none is_set_height dispatch_event); [done | by intros []]. }
  assert (Htimer : count_events is_timer new = 0).
  { apply (count_events_none is_timer dispatch_event); [done | by intros []]. }
  destruct (Network.checkForAip11Enabled env options fuel w) as [u w'|e w'|w'];
    [|by exists new..].
  destruct Hrun as [height Hrun]. cbn. rewrite Hrun, app_assoc.
  eexists. split; [done |]. rewrite !count_events_app, Hheight, Htimer.
  destruct (aip11 _); cbn; lia.
Qed.

Lemma checkForAip11Enabled_footprint_witness :
  exists new,
    history (world_of (Network.checkForAip11Enabled Cases.hollow Demo.seed_options 2
                         Demo.start)) = new ++ [] /\
    count_events is_set_height new = 0 /\ count_events is_timer new = 0.
Proof.
  destruct (checkForAip11Enabled_footprint Cases.hollow Demo.seed_options 2 Demo.start)
    as (new & Hnew & Hcount).
  exists new. split; [exact Hnew | exact Hcount].
Defined.

(** X12.  The chain of watcher iterations, each started by the timer the
    previous one set.  Every iteration that sets a timer has written a
    height first, so while the chain runs, and when it dies of an
    exception, it has written as many heights as it has set timers.
    When it ends by returning, it has written one height more, that
    last height is the newest event and its milestone has [aip11]: the
    chain stops only at an active milestone or by an exception.  The
    chain never sets more timers than iterations were followed. *)
Theorem watcher_stops_when_active (env : Env) (options : NetworkOptions)
    (rounds fuel : nat) (w : World) :
  exists new,
    history (world_of (watcher env options rounds fuel w)) = new ++ history w /\
    count_events is_timer new <= rounds /\
    match watcher env options rounds fuel w with
    | Returned _ w' =>
        count_events is_set_height new = S (count_events is_timer new) /\
        exists height rest,
          history w' = EvSetHeight height :: rest /\
          aip11 (getMilestone env height) = true
    | _ => count_events is_set_height new = count_events is_timer new
    end.
Proof.
  revert w. induction rounds as [|rounds IH]; intros w.
  { exists []. cbn. repeat split; lia. }
  cbn [watcher].
  destruct (checkForAip11Enabled_run env options fuel w) as (query & Hall & Hrun).
  assert (Hheight : count_events is_set_height query = 0).
  { apply (count_events_none is_set_height dispatch_event); [done | by intros []]. }
  assert (Htimer : count_events is_timer query = 0).
  { apply (count_events_none is_timer dispatch_event); [done | by intros []]. }
  destruct (Network.checkForAip11Enabled env options fuel w) as [u w'|e w'|w'].
  2,3: exists query; cbn; rewrite Hheight, Htimer; repeat split; [done | lia].
  destruct Hrun as [height Hrun].
  destruct (aip11 (getMilestone env height)) eqn:Hactive; rewrite Hrun; cbn.
  - exists (EvSetHeight height :: query). cbn. rewrite Hrun, Hheight, Htimer.
    split; [done |]. split; [lia |]. split; [done |]. by eexists _, _.
  - destruct (IH w') as (later & Hlater & Hbound & Hcount).
    exists (later ++ EvSetTimeout RunCheckForAip11Enabled
                       (blocktime (getMilestone env height) * 1000)
                  :: EvSetHeight height :: query).
    rewrite Hlater, Hrun, <- app_assoc. split; [done |].
    rewrite !count_events_app. cbn. rewrite Hheight, Htimer.
    split; [lia |].
    destruct (watcher env options rounds fuel w') as [u' w''|e w''|w''].
    + destruct Hcount as [Hcount Hlast]. split; [lia | done].
    + lia.
    + lia.
Qed.

(** The chain in the world [healthy], where the height stays at 7 and the
    feature stays inactive, followed for three iterations, and in the
    world [upgraded], where the first poll finds the feature active. *)
Example watcher_keeps_polling :
  exists w',
    watcher Demo.healthy Demo.seed_options 3 2 Demo.start = OutOfFuel w' /\
    count_events is_set_height (history w') = 3 /\
    count_events is_timer (history w') = 3 /\
    count_events is_got (history w') = 3.
Proof. eexists. by vm_compute. Qed.

Example watcher_stops_at_once :
  watcher Demo.upgraded Demo.seed_options 3 2 Demo.start =
    Network.checkForAip11Enabled Demo.upgraded Demo.seed_options 2 Demo.start.
Proof. reflexivity. Qed.

(** * Beyond the claims: the wallet helpers *)

(** X13.  A wallet that [decryptWIF] returns is consistent: its [wif] is
    the encoding, under the network's WIF version, of the key that
    [bip38.decrypt] recovered, and its [keys] are the keys of that very
    [wif]. *)
Theorem decryptWIF_wallet_consistent (lib : CryptoLib)
    (encryptedWif userId bip38password : string) (wallet : IWallet) :
  Wallet.decryptWIF lib encryptedWif userId bip38password = Resolved wallet ->
  exists decrypted,
    bip38_decrypt lib encryptedWif (bip38password +:+ userId) = Resolved decrypted /\
    wif_encode lib (network_wif lib) (privateKey decrypted) (compressed decrypted)
      = Resolved (wif wallet) /\
    Keys_fromWIF lib (wif wallet) = Resolved (keys wallet).
Proof.
  unfold Wallet.decryptWIF, mbind, Answer_bind, mret, Answer_ret.
  destruct (bip38_decrypt lib encryptedWif _) as [decrypted|]; [|done].
  destruct (wif_encode lib _ _ _) as [encoded|] eqn:Hencode; [|done].
  destruct (Keys_fromWIF lib encoded) as [pair|] eqn:Hkeys; [|done].
  intros [= <-]. by exists decrypted.
Qed.

Lemma decryptWIF_wallet_consistent_witness :
  exists decrypted,
    bip38_decrypt Cases.strict_lib "6PYencrypted" ("secret" +:+ "alice")
      = Resolved decrypted /\
    wif_encode Cases.strict_lib 170 (privateKey decrypted) (compressed decrypted)
      = Resolved "WIF" /\
    Keys_fromWIF Cases.strict_lib "WIF" = Resolved (keys Demo.toy_wallet).
Proof.
  apply (decryptWIF_wallet_consistent Cases.strict_lib "6PYencrypted" "alice" "secret"
           Demo.toy_wallet).
  reflexivity.
Defined.

(** X14.  [decryptWIF] sees the user id and the password only through
    their concatenation [bip38password + userId]: two pairs with the
    same concatenation decrypt an entry to the same result, e.g. the
    password [secret] for [alice] and the password [secre] for [talice].
    So if two such users have the same entry stored, [getBIP38Wallet]
    gives both the same wallet, or the same error. *)
Theorem decryptWIF_concatenation (lib : CryptoLib) (database : gmap string string)
    (encryptedWif userId bip38password userId' bip38password' : string) :
  bip38password +:+ userId = bip38password' +:+ userId' ->
  Wallet.decryptWIF lib encryptedWif userId bip38password =
    Wallet.decryptWIF lib encryptedWif userId' bip38password' /\
  (database !! sha256_hex lib userId = database !! sha256_hex lib userId' ->
   Wallet.getBIP38Wallet lib database userId bip38password =
     Wallet.getBIP38Wallet lib database userId' bip38password').
Proof.
  intros Hsame.
  assert (Hdecrypt : forall entry,
    Wallet.decryptWIF lib entry userId bip38password =
      Wallet.decryptWIF lib entry userId' bip38password').
  { intros entry. unfold Wallet.decryptWIF. by rewrite Hsame. }
  split; [apply Hdecrypt |].
  intros Hentry. unfold Wallet.getBIP38Wallet. rewrite Hentry.
  destruct (database !! sha256_hex lib userId') as [entry|]; [|done].
  by rewrite Hdecrypt.
Qed.

Lemma decryptWIF_concatenation_witness :
  Wallet.decryptWIF Cases.strict_lib "6PYencrypted" "alice" "secret" =
    Wallet.decryptWIF Cases.strict_lib "6PYencrypted" "talice" "secre" /\
  Wallet.getBIP38Wallet Cases.strict_lib
    (<["sha256:talice" := "6PYencrypted"]> Demo.store) "alice" "secret" =
    Wallet.getBIP38Wallet Cases.strict_lib
      (<["sha256:talice" := "6PYencrypted"]> Demo.store) "talice" "secre".
Proof.
  destruct (decryptWIF_concatenation Cases.strict_lib
              (<["sha256:talice" := "6PYencrypted"]> Demo.store)
              "6PYencrypted" "alice" "secret" "talice" "secre")
    as [Hdecrypt Hwallet]; [reflexivity |].
  split; [exact Hdecrypt |]. apply Hwallet.
  change (sha256_hex Cases.strict_lib "alice") with "sha256:alice".
  change (sha256_hex Cases.strict_lib "talice") with "sha256:talice".
  rewrite lookup_insert_ne by done.
  rewrite lookup_insert_eq. apply lookup_singleton_eq.
Defined.

(** X15.  [getBIP38Wallet] fails exactly when the user has a non-empty
    entry and [decryptWIF] fails on it, and then with that error: a
    wrong password gives an exception, never [undefined], and a missing
    user never gives an exception. *)
Theorem getBIP38Wallet_fails_only_in_decryption (lib : CryptoLib)
    (database : gmap string string) (userId bip38password : string) (e : Error) :
  Wallet.getBIP38Wallet lib database userId bip38password = Rejected e <->
  exists encryptedWif,
    database !! sha256_hex lib userId = Some encryptedWif /\
    encryptedWif <> EmptyString /\
    Wallet.decryptWIF lib encryptedWif userId bip38password = Rejected e.
Proof.
  unfold Wallet.getBIP38Wallet.
  destruct (database !! sha256_hex lib userId) as [[|c rest]|]; cbn.
  - split; [done | by intros (x & [= <-] & Hne & _)].
  - unfold mbind, Answer_bind.
    destruct (Wallet.decryptWIF lib (String c rest) userId bip38password)
      as [wallet|e0] eqn:Hdecrypt; cbn.
    + split; [done |]. intros (x & [= <-] & _ & Hfail). congruence.
    + split.
      * intros [= <-]. by exists (String c rest).
      * intros (x & [= <-] & _ & Hfail). congruence.
  - split; [done | by intros (x & Hnone & _)].
Qed.

Lemma getBIP38Wallet_fails_only_in_decryption_witness :
  Wallet.getBIP38Wallet Cases.strict_lib Demo.store "alice" "guess" =
    Rejected (mkError "Incorrect passphrase.").
Proof.
  apply (getBIP38Wallet_fails_only_in_decryption Cases.strict_lib Demo.store
           "alice" "guess" (mkError "Incorrect passphrase.")).
  exists "6PYencrypted". split; [apply lookup_singleton_eq |]. split; [done |].
  reflexivity.
Defined.

(** X16.  [getBIP38Wallet] reads the database at one key only, the hex
    sha256 of the user id.  Storing or deleting any other entry leaves
    its result unchanged; once the user's own entry is replaced by a
    non-empty [encryptedWif], its result is that of [decryptWIF] on the
    new entry; once the user's entry is deleted, it is [undefined]. *)
Theorem getBIP38Wallet_reads_one_key (lib : CryptoLib)
    (database : gmap string string) (userId bip38password : string) :
  (forall key value,
     key <> sha256_hex lib userId ->
     Wallet.getBIP38Wallet lib (<[key := value]> database) userId bip38password =
       Wallet.getBIP38Wallet lib database userId bip38password /\
     Wallet.getBIP38Wallet lib (delete key database) userId bip38password =
       Wallet.getBIP38Wallet lib database userId bip38password) /\
  (forall encryptedWif,
     encryptedWif <> EmptyString ->
     Wallet.getBIP38Wallet lib (<[sha256_hex lib userId := encryptedWif]> database)
       userId bip38password =
       wallet ← Wallet.decryptWIF lib encryptedWif userId bip38password;
       mret (Some wallet)) /\
  Wallet.getBIP38Wallet lib (delete (sha256_hex lib userId) database)
    userId bip38password = Resolved None.
Proof.
  unfold Wallet.getBIP38Wallet. split; [|split].
  - intros key value Hother.
    by rewrite lookup_insert_ne, lookup_delete_ne.
  - intros encryptedWif Hne. rewrite lookup_insert_eq.
    apply truthy_nonempty in Hne. by rewrite Hne.
  - by rewrite lookup_delete_eq.
Qed.

Lemma getBIP38Wallet_reads_one_key_witness :
  Wallet.getBIP38Wallet Demo.toy_lib (<["sha256:bob" := "6PYother"]> Demo.store)
    "alice" "secret" =
    Wallet.getBIP38Wallet Demo.toy_lib Demo.store "alice" "secret" /\
  Wallet.getBIP38Wallet Demo.toy_lib (<["sha256:alice" := "6PYnew"]> Demo.blank_store)
    "alice" "secret" = Resolved (Some Demo.toy_wallet).
Proof.
  destruct (getBIP38Wallet_reads_one_key Demo.toy_lib Demo.store "alice" "secret")
    as (Hother & _ & _).
  destruct (getBIP38Wallet_reads_one_key Demo.toy_lib Demo.blank_store "alice" "secret")
    as (_ & Hown & _).
  split.
  - by apply (Hother "sha256:bob" "6PYother").
  - by apply (Hown "6PYnew").
Defined.

(** * Beyond the claims: a dispatch without candidates *)

Lemma sendRequest_try_no_candidate (env : Env) (options : NetworkOptions)
    (fuel : nat) (method : HttpMethod) (url : string) (opts : RequestOptions)
    (w : World) :
  truthy (peer options) = false ->
  (findPeersWithPlugin env (clock w) "core-api" = Resolved [] \/
   exists e, findPeersWithPlugin env (clock w) "core-api" = Rejected e) ->
  exists e answer,
    Network.sendRequest_try env options (S fuel) method url opts w =
      (opts, Thrown e (mkWorld (S (clock w))
                         (EvFindPeers "core-api" answer :: history w))).
Proof.
  intros Hseed Hnone. unfold Network.sendRequest_try.
  rewrite getPeer_unfold by done. cbn zeta.
  destruct Hnone as [-> | [e ->]]; by eexists _, _.
Qed.

(** X17.  Without a seed peer, when discovery yields no candidate on any
    call (it fails, or it answers with the empty list), a dispatch ends
    like one whose peers all refused: it returns [undefined] after three
    discovery calls and four error lines, having probed no peer and
    issued no request. *)
Theorem sendRequest_without_candidates (env : Env) (options : NetworkOptions)
    (fuel : nat) (method : HttpMethod) (url : string) (opts : RequestOptions)
    (w : World) :
  truthy (peer options) = false ->
  (forall t, clock w <= t ->
     findPeersWithPlugin env t "core-api" = Resolved [] \/
     exists e, findPeersWithPlugin env t "core-api" = Rejected e) ->
  4 <= fuel ->
  exists w',
    Network.sendRequest env options fuel method url opts 0 w = Returned undefined w' /\
    clock w' = 3 + clock w /\
    count_events is_find_peers (history w') =
      3 + count_events is_find_peers (history w) /\
    count_events (is_log Err) (history w') =
      4 + count_events (is_log Err) (history w) /\
    count_events is_probe (history w') = count_events is_probe (history w) /\
    count_events is_got (history w') = count_events is_got (history w).
Proof.
  intros Hseed Hnone Hfuel.
  destruct fuel as [|[|[|[|fuel]]]]; try lia.
  rewrite sendRequest_unfold.
  destruct (sendRequest_try_no_candidate env options (S (S fuel)) method url opts w
              Hseed) as (e1 & a1 & ->); [apply Hnone; lia |].
  cbn zeta. change (2 <? 1) with false. cbn [clock history].
  rewrite sendRequest_unfold.
  destruct (sendRequest_try_no_candidate env options (S fuel) method url opts
              (mkWorld (S (clock w))
                 (EvLog Err (message e1) :: EvFindPeers "core-api" a1 :: history w))
              Hseed) as (e2 & a2 & ->); [apply Hnone; cbn; lia |].
  cbn zeta. change (2 <? 2) with false. cbn [clock history].
  rewrite sendRequest_unfold.
  destruct (sendRequest_try_no_candidate env options fuel method url opts
              (mkWorld (S (S (clock w)))
                 (EvLog Err (message e2) :: EvFindPeers "core-api" a2
                  :: EvLog Err (message e1) :: EvFindPeers "core-api" a1
                  :: history w))
              Hseed) as (e3 & a3 & ->); [apply Hnone; cbn; lia |].
  cbn zeta. change (2 <? 3) with true. cbn [clock history].
  eexists. split; [done |]. cbn. repeat split; lia.
Qed.

Lemma sendRequest_without_candidates_witness :
  exists w',
    Network.sendRequest Cases.undiscoverable Demo.discovery_options 4 POST
      "transactions" {| query := None; body := Some (BodyObject (JObj [])) |} 0
      Demo.start = Returned undefined w' /\
    clock w' = 3 + 0 /\
    count_events is_find_peers (history w') = 3 + 0 /\
    count_events (is_log Err) (history w') = 4 + 0 /\
    count_events is_probe (history w') = 0 /\
    count_events is_got (history w') = 0.
Proof.
  apply (sendRequest_without_candidates Cases.undiscoverable Demo.discovery_options 4
           POST "transactions"
           {| query := None; body := Some (BodyObject (JObj [])) |} Demo.start).
  - reflexivity.
  - intros t _. right. by eexists.
  - lia.
Defined.
